(** * pyroute2.netlink.generic: the netlink message codec

    A shallow embedding of [pyroute2/netlink/generic.py]: the [io.BytesIO]
    cursor, the [struct] formats that the field blocks use, the class
    declarations ([fields], [header], [nla_map] and the overridden
    [decode]/[encode] methods), and the methods of [nlmsg_base]:
    [decode], [decode_nlas], [encode], [encode_nlas], [update_length],
    [getvalue], [setvalue], [get_attr], [get_attrs], [get_encoded].

    Conventions.
    - Python 3 semantics ([sys.version[0] == '3']); native byte order is
      little-endian.
    - A Python [int] is a [Z]; [bytes] is a [list byte]; a [str] is
      represented by the [string] of its UTF-8 encoding.
    - An exception is a value of [exn]; a method returns an [outcome].
    - [pack] is [None] in every class of the module, so the
      [pack == 'struct'] branch of [decode] is not embedded; no [nla_map]
      of the module resolves to a bound method, so the
      [types.MethodType] branches are not embedded either.  The atoms
      [ipaddr] and [l2addr], which no [nla_map] of the module names, are
      left out. *)

From Stdlib Require Import ZArith List Lia Bool String Ascii.
From Stdlib.Strings Require Import Byte.
Import ListNotations.
Local Open Scope string_scope.
Local Open Scope list_scope.
Local Open Scope Z_scope.

(** ** Exceptions and outcomes *)

Inductive exn : Type :=
| StructError
| IndexError
| KeyError
| TypeError
| ValueError
| NetlinkHeaderDecodeError (e : exn)
| NetlinkDataDecodeError (e : exn)
| NetlinkNLADecodeError (e : exn).

(** [OutOfFuel] is not a Python exception: it marks a [while] loop of the
    model that was cut before its guard became false.  No [except]
    clause catches it. *)
Inductive outcome (A : Type) : Type :=
| Ok (a : A)
| Raise (e : exn)
| OutOfFuel.

Arguments Ok {A} a.
Arguments Raise {A} e.
Arguments OutOfFuel {A}.

Definition bind {A B : Type} (m : outcome A) (k : A -> outcome B) : outcome B :=
  match m with
  | Ok a => k a
  | Raise e => Raise e
  | OutOfFuel => OutOfFuel
  end.

Notation "x <- m ;; k" := (bind m (fun x => k))
  (at level 61, m at next level, right associativity).
Notation "' p <- m ;; k" := (bind m (fun p => k))
  (at level 61, p pattern, m at next level, right associativity).

(** [try: m except Exception as e: raise w(e)] *)
Definition reraise {A : Type} (w : exn -> exn) (m : outcome A) : outcome A :=
  match m with
  | Ok a => Ok a
  | Raise e => Raise (w e)
  | OutOfFuel => OutOfFuel
  end.

(** ** Bytes and little-endian integers *)

Definition bytes : Type := list byte.

Definition byte_to_Z (b : byte) : Z := Z.of_N (Byte.to_N b).

Definition byte_of_Z (z : Z) : byte :=
  match Byte.of_N (Z.to_N (z mod 256)) with
  | Some b => b
  | None => x00
  end.

Fixpoint le_decode (bs : bytes) : Z :=
  match bs with
  | [] => 0
  | b :: t => byte_to_Z b + 256 * le_decode t
  end.

Fixpoint le_encode (n : nat) (z : Z) : bytes :=
  match n with
  | O => []
  | S n' => byte_of_Z z :: le_encode n' (z / 256)
  end.

Definition len (bs : bytes) : Z := Z.of_nat (List.length bs).

(** Python's [bs[lo:hi]] for [0 <= lo]. *)
Definition slice (bs : bytes) (lo hi : Z) : bytes :=
  firstn (Z.to_nat (hi - lo)) (skipn (Z.to_nat lo) bs).

Definition zeros (n : Z) : bytes := repeat x00 (Z.to_nat n).

(** ** NLMSG_ALIGN *)

Definition NLMSG_ALIGNTO : Z := 4.

Definition NLMSG_ALIGN (l : Z) : Z :=
  Z.land (l + NLMSG_ALIGNTO - 1) (Z.lnot (NLMSG_ALIGNTO - 1)).

(** ** io.BytesIO *)

Record BytesIO : Type := mkBuf { data : bytes; pos : Z }.

Definition new_buf : BytesIO := mkBuf [] 0.
Definition buf_of (bs : bytes) : BytesIO := mkBuf bs 0.

Definition tell (b : BytesIO) : Z := pos b.

(** [buf.seek(p)]: a negative position raises [ValueError]. *)
Definition seek (p : Z) (b : BytesIO) : outcome BytesIO :=
  if p <? 0 then Raise ValueError else Ok (mkBuf (data b) p).

(** [buf.seek(n, 1)] *)
Definition seek_cur (n : Z) (b : BytesIO) : BytesIO :=
  mkBuf (data b) (Z.max 0 (pos b + n)).

(** [buf.read(n)] for [0 <= n]: the bytes from the cursor, at most [n],
    fewer at the end of the buffer; the cursor moves by what was read. *)
Definition read (n : Z) (b : BytesIO) : bytes * BytesIO :=
  let r := slice (data b) (pos b) (pos b + n) in
  (r, mkBuf (data b) (pos b + len r)).

(** [buf.write(bs)]: overwrites from the cursor and extends the buffer; a
    cursor beyond the end is reached by zero filling. *)
Definition write (bs : bytes) (b : BytesIO) : BytesIO :=
  let d := data b ++ zeros (pos b - len (data b)) in
  mkBuf (firstn (Z.to_nat (pos b)) d ++ bs ++ skipn (Z.to_nat (pos b + len bs)) d)
        (pos b + len bs).

(** ** Python values, nodes and attribute entries *)

(** A node is an instance of (a subclass of) [nlmsg_base].  The entries
    of its dictionary are [items], except the keys ['header'] and
    ['attrs'], which no field of the module is named after and which
    are kept in [n_header] and [n_attrs] ([None]: the key is absent).
    [n_value] is the instance attribute [self.value].  An entry of
    ['attrs'] is the Python list [[name, value, ...]]. *)
Unset Elimination Schemes.
Inductive value : Type :=
| VInt (z : Z)
| VBytes (bs : bytes)
| VStr (s : string)
| VNone
| NotInitialized
| VNode (n : node)
with node : Type :=
| mkNode (items : list (string * value))
         (n_header : option node)
         (n_attrs : option (list attr))
         (n_value : value)
         (n_raw : option bytes)
         (n_length : Z)
         (n_offset : Z)
         (n_debug : bool)
with attr : Type :=
| mkAttr (a_name : string) (a_value : value) (a_rest : list value).
Set Elimination Schemes.

Definition items (n : node) := let 'mkNode x _ _ _ _ _ _ _ := n in x.
Definition n_header (n : node) := let 'mkNode _ x _ _ _ _ _ _ := n in x.
Definition n_attrs (n : node) := let 'mkNode _ _ x _ _ _ _ _ := n in x.
Definition n_value (n : node) := let 'mkNode _ _ _ x _ _ _ _ := n in x.
Definition n_raw (n : node) := let 'mkNode _ _ _ _ x _ _ _ := n in x.
Definition n_length (n : node) := let 'mkNode _ _ _ _ _ x _ _ := n in x.
Definition n_offset (n : node) := let 'mkNode _ _ _ _ _ _ x _ := n in x.
Definition n_debug (n : node) := let 'mkNode _ _ _ _ _ _ _ x := n in x.

Definition a_name (a : attr) := let 'mkAttr x _ _ := a in x.
Definition a_value (a : attr) := let 'mkAttr _ x _ := a in x.
Definition a_rest (a : attr) := let 'mkAttr _ _ x := a in x.

Definition set_items (x : list (string * value)) (n : node) : node :=
  mkNode x (n_header n) (n_attrs n) (n_value n) (n_raw n) (n_length n) (n_offset n) (n_debug n).
Definition set_header (x : option node) (n : node) : node :=
  mkNode (items n) x (n_attrs n) (n_value n) (n_raw n) (n_length n) (n_offset n) (n_debug n).
Definition set_attrs (x : option (list attr)) (n : node) : node :=
  mkNode (items n) (n_header n) x (n_value n) (n_raw n) (n_length n) (n_offset n) (n_debug n).
Definition set_value (x : value) (n : node) : node :=
  mkNode (items n) (n_header n) (n_attrs n) x (n_raw n) (n_length n) (n_offset n) (n_debug n).
Definition set_raw (x : option bytes) (n : node) : node :=
  mkNode (items n) (n_header n) (n_attrs n) (n_value n) x (n_length n) (n_offset n) (n_debug n).
Definition set_length (x : Z) (n : node) : node :=
  mkNode (items n) (n_header n) (n_attrs n) (n_value n) (n_raw n) x (n_offset n) (n_debug n).
Definition set_offset (x : Z) (n : node) : node :=
  mkNode (items n) (n_header n) (n_attrs n) (n_value n) (n_raw n) (n_length n) x (n_debug n).

(** *** The dictionary of a node (insertion ordered) *)

Fixpoint dict_get (k : string) (d : list (string * value)) : option value :=
  match d with
  | [] => None
  | (k', v) :: t => if String.eqb k k' then Some v else dict_get k t
  end.

Fixpoint dict_set (k : string) (v : value) (d : list (string * value))
  : list (string * value) :=
  match d with
  | [] => [(k, v)]
  | (k', v') :: t =>
      if String.eqb k k' then (k, v) :: t else (k', v') :: dict_set k v t
  end.

Fixpoint dict_del (k : string) (d : list (string * value)) : list (string * value) :=
  match d with
  | [] => []
  | (k', v') :: t => if String.eqb k k' then t else (k', v') :: dict_del k t
  end.

(** [self[k]] *)
Definition getitem (k : string) (n : node) : outcome value :=
  match dict_get k (items n) with
  | Some v => Ok v
  | None => Raise KeyError
  end.

(** [self[k] = v] *)
Definition setitem (k : string) (v : value) (n : node) : node :=
  set_items (dict_set k v (items n)) n.

(** [del self[k]] *)
Definition delitem (k : string) (n : node) : outcome node :=
  match dict_get k (items n) with
  | Some _ => Ok (set_items (dict_del k (items n)) n)
  | None => Raise KeyError
  end.

(** [self['header']] and [self['attrs']] *)
Definition get_header (n : node) : outcome node :=
  match n_header n with Some h => Ok h | None => Raise KeyError end.

Definition get_attrs_list (n : node) : outcome (list attr) :=
  match n_attrs n with Some l => Ok l | None => Raise KeyError end.

(** ** str and UTF-8 *)

Definition bytes_of_str (s : string) : bytes := list_byte_of_string s.
Definition str_of_bytes (bs : bytes) : string := string_of_list_byte bs.

Definition is_cont (b : byte) : bool :=
  (128 <=? byte_to_Z b) && (byte_to_Z b <? 192).

(** [len(s)] for a [str]: its number of code points. *)
Definition str_len (s : string) : Z :=
  len (filter (fun b => negb (is_cont b)) (bytes_of_str s)).

Definition in_range (lo hi : Z) (b : byte) : bool :=
  (lo <=? byte_to_Z b) && (byte_to_Z b <=? hi).

(** The well-formed byte sequences of UTF-8, which are the ones that
    [bytes.decode('utf-8')] accepts. *)
Fixpoint utf8_valid_fuel (fuel : nat) (bs : bytes) : bool :=
  match fuel with
  | O => match bs with [] => true | _ => false end
  | S fuel' =>
      match bs with
      | [] => true
      | b0 :: t =>
          if in_range 0 127 b0 then utf8_valid_fuel fuel' t
          else if in_range 194 223 b0 then
            match t with
            | b1 :: t' => in_range 128 191 b1 && utf8_valid_fuel fuel' t'
            | _ => false
            end
          else if in_range 224 239 b0 then
            match t with
            | b1 :: b2 :: t' =>
                (if byte_to_Z b0 =? 224 then in_range 160 191 b1
                 else if byte_to_Z b0 =? 237 then in_range 128 159 b1
                 else in_range 128 191 b1)
                && in_range 128 191 b2 && utf8_valid_fuel fuel' t'
            | _ => false
            end
          else if in_range 240 244 b0 then
            match t with
            | b1 :: b2 :: b3 :: t' =>
                (if byte_to_Z b0 =? 240 then in_range 144 191 b1
                 else if byte_to_Z b0 =? 244 then in_range 128 143 b1
                 else in_range 128 191 b1)
                && in_range 128 191 b2 && in_range 128 191 b3
                && utf8_valid_fuel fuel' t'
            | _ => false
            end
          else false
      end
  end.

Definition utf8_valid (bs : bytes) : bool := utf8_valid_fuel (List.length bs) bs.

(** [len(v)] *)
Definition py_len (v : value) : outcome Z :=
  match v with
  | VBytes bs => Ok (len bs)
  | VStr s => Ok (str_len s)
  | VNode n =>
      Ok (Z.of_nat (List.length (items n))
          + match n_header n with Some _ => 1 | None => 0 end
          + match n_attrs n with Some _ => 1 | None => 0 end)
  | _ => Raise TypeError
  end.

(** ** struct *)

(** The format strings of the module: ['B'], ['H'], ['I'], ['Q'], ['s'],
    ['z'] and ['<n>s'] (['16s'], ['=6s'], and ['%is' % n]). *)
Inductive fmt : Type := FB | FH | FI | FQ | Fs | Fz | FNs (n : Z).

Definition is_sz (f : fmt) : bool :=
  match f with Fs | Fz => true | _ => false end.

Definition is_z (f : fmt) : bool :=
  match f with Fz => true | _ => false end.

(** [struct.calcsize]: ['s'] alone is ['1s']; ['z'] is no struct format,
    nor is a negative count. *)
Definition calcsize (f : fmt) : outcome Z :=
  match f with
  | FB => Ok 1
  | FH => Ok 2
  | FI => Ok 4
  | FQ => Ok 8
  | Fs => Ok 1
  | Fz => Raise StructError
  | FNs n => if n <? 0 then Raise StructError else Ok n
  end.

(** [struct.unpack(f, raw)[0]]: every format of the module unpacks to a
    one-element tuple. *)
Definition unpack (f : fmt) (raw : bytes) : outcome value :=
  size <- calcsize f ;;
  if negb (len raw =? size) then Raise StructError
  else match f with
       | FB | FH | FI | FQ => Ok (VInt (le_decode raw))
       | _ => Ok (VBytes raw)
       end.

(** [struct.pack(f, v)] *)
Definition pack (f : fmt) (v : value) : outcome bytes :=
  size <- calcsize f ;;
  match f with
  | FB | FH | FI | FQ =>
      match v with
      | VInt z =>
          if (0 <=? z) && (z <? 2 ^ (8 * size))
          then Ok (le_encode (Z.to_nat size) z)
          else Raise StructError
      | _ => Raise StructError
      end
  | _ =>
      match v with
      | VBytes bs =>
          Ok (firstn (Z.to_nat size) bs ++ zeros (size - len bs))
      | _ => Raise StructError
      end
  end.

(** ** pyroute2.common.hexdump *)

Definition hex_digit (z : Z) : ascii :=
  ascii_of_nat (Z.to_nat (if z <? 10 then 48 + z else 87 + z)).

Definition hex_byte (b : byte) : string :=
  String (hex_digit (byte_to_Z b / 16))
         (String (hex_digit (byte_to_Z b mod 16)) EmptyString).

(** Modelled from the spec: [hexdump] of [pyroute2.common] is imported by
    the module and is not part of it; the spec calls its result a hex
    string, a human-readable hex dump.  Here: two lowercase hexadecimal
    digits per byte, joined by colons. *)
Fixpoint hexdump (bs : bytes) : string :=
  match bs with
  | [] => EmptyString
  | [b] => hex_byte b
  | b :: t => hex_byte b ++ ":" ++ hexdump t
  end%string.

(** ** Classes *)

(** Which class of the module overrides [decode] or [encode]:
    [nlmsg_atoms.none], [nlmsg_atoms.hex], [nlmsg_atoms.asciiz], [nla];
    [Base] is [nlmsg_base]'s own. *)
Inductive hook : Type := Base | AtomNone | AtomHex | AtomAsciiz | Nla.

(** A class: [__name__], [fields], [header], [nla_map] with the class
    that [getattr(self, nla_class)] resolves each entry to, and its
    overridden methods. *)
Unset Elimination Schemes.
Inductive schema : Type :=
| Schema (cname : string)
         (fields : list (string * fmt))
         (header : option schema)
         (nla_map : list (string * schema))
         (override : hook).
Set Elimination Schemes.

Definition cname (c : schema) := let 'Schema x _ _ _ _ := c in x.
Definition fields (c : schema) := let 'Schema _ x _ _ _ := c in x.
Definition header (c : schema) := let 'Schema _ _ x _ _ := c in x.
Definition nla_map (c : schema) := let 'Schema _ _ _ x _ := c in x.
Definition override (c : schema) := let 'Schema _ _ _ _ x := c in x.

(** [__init__(self, buf, length, parent, debug)] *)
Fixpoint init_node (c : schema) (length : Z) (debug : bool) : node :=
  match c with
  | Schema _ flds hdr _ _ =>
      mkNode
        (dict_set "value" NotInitialized
           (fold_left (fun d f => dict_set (fst f) (VInt 0) d) flds []))
        match hdr with
        | Some h => Some (init_node h 0 false)
        | None => None
        end
        (Some []) NotInitialized None length 0 debug
  end.

(** ** nlmsg_base.getvalue and setvalue *)

Definition is_notinit (v : value) : bool :=
  match v with NotInitialized => true | _ => false end.

Definition is_none (v : value) : bool :=
  match v with VNone => true | _ => false end.

Definition getvalue (n : node) : value :=
  if negb (is_notinit (n_value n)) then n_value n
  else match dict_get "value" (items n) with
       | Some v => if is_notinit v then VNode n else v
       | None => VNode n
       end.

(** No value of the model has type [dict] itself: a node is an instance
    of a subclass. *)
Definition setvalue (v : value) (n : node) : node :=
  set_value v (setitem "value" v n).

(** ** nlmsg_base.decode_nlas *)

(** [msg_class(self.buf, length, self, debug=self.debug)] followed by
    [nla.decode()]. *)
Definition child_decoder : Type :=
  bool -> Z -> BytesIO -> outcome (node * BytesIO).

(** [struct.unpack('HH', self.buf.read(4))] *)
Definition peek_header (b : BytesIO) : outcome (Z * Z) :=
  let raw := fst (read 4 b) in
  if len raw =? 4
  then Ok (le_decode (firstn 2 raw), le_decode (skipn 2 raw))
  else Raise StructError.

(** The length of an attribute after the clamp. *)
Definition clamp (length : Z) (n : node) (init : Z) : Z :=
  Z.min (Z.max length 4) (n_length n - init + n_offset n).

(** The entry that [self['attrs'].append] receives. *)
Definition new_entry (debug : bool) (msg_name : string) (msg_value : value)
           (msg_type length init : Z) : attr :=
  if debug
  then mkAttr msg_name msg_value [VInt msg_type; VInt length; VInt init]
  else mkAttr msg_name msg_value [].

(** One pass through the body of the [while] loop. *)
Definition nla_iter (tbl : list (string * child_decoder))
           (n : node) (b : BytesIO) : outcome (node * BytesIO) :=
  let init := tell b in
  '(length, msg_type) <- peek_header b ;;
  b <- seek init (snd (read 4 b)) ;;
  let length := clamp length n (tell b) in
  '(n, b) <-
    match nth_error tbl (Z.to_nat msg_type) with
    | Some (msg_name, msg_class) =>
        '(msg_value, b) <-
          match msg_class (n_debug n) length b with
          | Ok (nla, b') => Ok (getvalue nla, b')
          | Raise _ =>
              b1 <- seek init b ;;
              let '(raw, b2) := read length b1 in
              Ok (VStr (hexdump raw), b2)
          | OutOfFuel => OutOfFuel
          end ;;
        attrs <- get_attrs_list n ;;
        let entry := new_entry (n_debug n) msg_name msg_value msg_type length init in
        Ok (set_attrs (Some (attrs ++ [entry])) n, b)
    | None => Ok (n, b)
    end ;;
  b <- seek (init + NLMSG_ALIGN length) b ;;
  Ok (n, b).

Fixpoint decode_nlas_loop (fuel : nat) (tbl : list (string * child_decoder))
         (n : node) (b : BytesIO) : outcome (node * BytesIO) :=
  if tell b <? n_offset n + n_length n then
    match fuel with
    | O => OutOfFuel
    | S fuel' =>
        '(n', b') <- nla_iter tbl n b ;;
        decode_nlas_loop fuel' tbl n' b'
    end
  else Ok (n, b).

(** The loop, with one unit of fuel for every byte between the cursor
    and the end of the node. *)
Definition decode_nlas (tbl : list (string * child_decoder))
           (n : node) (b : BytesIO) : outcome (node * BytesIO) :=
  decode_nlas_loop (Z.to_nat (n_offset n + n_length n - tell b)) tbl n b.

(** ** nlmsg_base.decode *)

(** [v[-1]] and [v[:-1]] of the value of a ['z'] field. *)
Definition last_item (v : value) : outcome Z :=
  match v with
  | VBytes bs =>
      match rev bs with
      | [] => Raise IndexError
      | b :: _ => Ok (byte_to_Z b)
      end
  | _ => Raise TypeError
  end.

Definition drop_last (v : value) : value :=
  match v with
  | VBytes bs => VBytes (removelast bs)
  | _ => v
  end.

(** The body of [for field in fields]. *)
Definition decode_field (n : node) (b : BytesIO) (field : string * fmt)
  : outcome (node * BytesIO) :=
  let name := fst field in
  let fmt0 := if is_sz (snd field) then FNs (n_length n - 4) else snd field in
  size <- calcsize fmt0 ;;
  let '(raw, b) := read size b in
  let actual_size := len raw in
  let size := if is_sz (snd field) then actual_size else size in
  let fmt1 := if is_sz (snd field) then FNs actual_size else fmt0 in
  if size =? actual_size then
    v <- unpack fmt1 raw ;;
    if is_z (snd field) then
      l <- last_item v ;;
      if l =? 0 then Ok (setitem name (drop_last v) n, b)
      else Ok (setitem name v n, b)
    else Ok (setitem name v n, b)
  else Ok (n, b).

Fixpoint decode_fields (flds : list (string * fmt)) (n : node) (b : BytesIO)
  : outcome (node * BytesIO) :=
  match flds with
  | [] => Ok (n, b)
  | f :: t => '(n', b') <- decode_field n b f ;; decode_fields t n' b'
  end.

(** [max(v, 4)] *)
Definition py_max4 (v : value) : outcome Z :=
  match v with
  | VInt z => Ok (Z.max z 4)
  | _ => Raise TypeError
  end.

(** The header part of [decode]; [hdec] is [decode] of the header class. *)
Definition decode_header (name : string)
           (hdec : node -> BytesIO -> outcome (node * BytesIO))
           (n : node) (b : BytesIO) : outcome (node * BytesIO) :=
  reraise NetlinkHeaderDecodeError
    (h <- get_header n ;;
     '(h, b) <- hdec h b ;;
     hl <- getitem "length" h ;;
     length <- py_max4 hl ;;
     let n := set_length length (set_header (Some h) n) in
     let save := tell b in
     b <- seek (n_offset n) b ;;
     let '(raw, b) := read (n_length n) b in
     let n := set_raw (Some raw) n in
     b <- seek save b ;;
     if n_debug n then
       let h := setitem "class" (VStr name) h in
       let h := setitem "raw" (VStr (hexdump raw)) h in
       let h := setitem "offset" (VInt (n_offset n)) h in
       let h := setitem "length" (VInt (n_length n)) h in
       Ok (set_header (Some h) n, b)
     else Ok (n, b)).

(** What the subclasses add after [nla_base.decode(self)]. *)
Definition decode_override (o : hook) (n : node) : outcome node :=
  match o with
  | Base => Ok n
  | AtomNone => Ok (set_value VNone n)
  | AtomHex =>
      v <- getitem "value" n ;;
      match v with
      | VBytes bs => Ok (set_value (VStr (hexdump bs)) n)
      | _ => Raise TypeError
      end
  | AtomAsciiz =>
      v <- getitem "value" n ;;
      match v with
      | VBytes bs =>
          if utf8_valid bs then Ok (set_value (VStr (str_of_bytes bs)) n)
          else Ok (set_value (VBytes bs) n)
      | _ => Raise TypeError
      end
  | Nla =>
      if n_debug n then Ok n
      else match n_header n with
           | Some _ => Ok (set_header None n)
           | None => Raise KeyError
           end
  end.

(** [nlmsg_base.decode], given [decode] of the header class and the
    by-type table of the class. *)
Definition decode_base (name : string) (flds : list (string * fmt))
           (hdec : option (node -> BytesIO -> outcome (node * BytesIO)))
           (tbl : list (string * child_decoder))
           (n : node) (b : BytesIO) : outcome (node * BytesIO) :=
  let n := set_offset (tell b) n in
  '(n, b) <- match hdec with
             | Some hd => decode_header name hd n b
             | None => Ok (n, b)
             end ;;
  '(n, b) <- reraise NetlinkDataDecodeError (decode_fields flds n b) ;;
  '(n, b) <- reraise NetlinkNLADecodeError
               (b <- seek (NLMSG_ALIGN (tell b)) b ;;
                match tbl with
                | [] => Ok (n, b)
                | _ => decode_nlas tbl n b
                end) ;;
  attrs <- get_attrs_list n ;;
  let n := match attrs with [] => set_attrs None n | _ => n end in
  v <- getitem "value" n ;;
  n <- (if is_notinit v then delitem "value" n else Ok n) ;;
  Ok (n, b).

(** [self.decode()] for an instance [n] of class [c] over the buffer [b]. *)
Fixpoint decode (c : schema) (n : node) (b : BytesIO) {struct c}
  : outcome (node * BytesIO) :=
  match c with
  | Schema name flds hdr nmap o =>
      '(n, b) <-
        decode_base name flds
          match hdr with
          | Some h => Some (decode h)
          | None => None
          end
          (map (fun ks : string * schema =>
                  let '(k, s) := ks in
                  (k, (fun debug length b =>
                         decode s (init_node s length debug) b) : child_decoder))
               nmap)
          n b ;;
      n <- decode_override o n ;;
      Ok (n, b)
  end.

(** ** The classes of the module *)

Definition nla_header : schema :=
  Schema "nla_header" [("length", FH); ("type", FH)] None [] Base.

Definition nlmsg_header : schema :=
  Schema "nlmsg_header"
    [("length", FI); ("type", FH); ("flags", FH);
     ("sequence_number", FI); ("pid", FI)] None [] Base.

Definition nla_base : schema := Schema "nla_base" [] (Some nla_header) [] Base.
Definition none : schema := Schema "none" [] (Some nla_header) [] AtomNone.
Definition uint8 : schema := Schema "uint8" [("value", FB)] (Some nla_header) [] Base.
Definition uint16 : schema := Schema "uint16" [("value", FH)] (Some nla_header) [] Base.
Definition uint32 : schema := Schema "uint32" [("value", FI)] (Some nla_header) [] Base.
Definition hex : schema := Schema "hex" [("value", Fs)] (Some nla_header) [] AtomHex.
Definition cdata : schema := Schema "cdata" [("value", Fs)] (Some nla_header) [] Base.
Definition asciiz : schema := Schema "asciiz" [("value", Fz)] (Some nla_header) [] AtomAsciiz.
Definition nla : schema := Schema "nla" [] (Some nla_header) [] Nla.

Definition nlmsg : schema := Schema "nlmsg" [] (Some nlmsg_header) [] Base.

Definition genlmsg_fields : list (string * fmt) :=
  [("cmd", FB); ("version", FB); ("reserved", FH)].

Definition genlmsg : schema :=
  Schema "genlmsg" genlmsg_fields (Some nlmsg_header) [] Base.

Definition ctrlmsg : schema :=
  Schema "ctrlmsg" genlmsg_fields (Some nlmsg_header)
    [("CTRL_ATTR_UNSPEC", none);
     ("CTRL_ATTR_FAMILY_ID", uint16);
     ("CTRL_ATTR_FAMILY_NAME", asciiz);
     ("CTRL_ATTR_VERSION", hex);
     ("CTRL_ATTR_HDRSIZE", hex);
     ("CTRL_ATTR_MAXATTR", hex);
     ("CTRL_ATTR_OPS", hex);
     ("CTRL_ATTR_MCAST_GROUPS", hex)] Base.

Definition u32key : schema :=
  Schema "u32key" [("offset", FI); ("key", FI); ("mask", FI)]
    (Some nla_header) [] Nla.

Definition mgmtmsg : schema :=
  Schema "mgmtmsg" genlmsg_fields (Some nlmsg_header)
    [("IPR_ATTR_SECRET", asciiz);
     ("IPR_ATTR_HOST", asciiz);
     ("IPR_ATTR_SSL_KEY", asciiz);
     ("IPR_ATTR_SSL_CERT", asciiz);
     ("IPR_ATTR_SSL_CA", asciiz);
     ("IPR_ATTR_ADDR", uint32);
     ("IPR_ATTR_ERROR", asciiz);
     ("IPR_ATTR_CID", uint32);
     ("IPR_ATTR_KEY", u32key);
     ("IPR_ATTR_UUID", asciiz);
     ("IPR_ATTR_SOURCE", uint32)] Base.

Definition envmsg : schema :=
  Schema "envmsg"
    [("dst", FI); ("dport", FI); ("src", FI); ("sport", FI);
     ("ttl", FH); ("reserved", FH); ("id", FNs 16)]
    (Some nlmsg_header)
    [("IPR_ATTR_CDATA", cdata); ("IPR_ATTR_CNAME", asciiz)] Base.

(** ** nlmsg_base.reserve, encode, encode_nlas and update_length *)

Fixpoint get_size (flds : list (string * fmt)) : outcome Z :=
  match flds with
  | [] => Ok 0
  | f :: t => a <- calcsize (snd f) ;; r <- get_size t ;; Ok (a + r)
  end.

(** [self.reserve()] for an instance of a class with the fields [flds]. *)
Definition reserve (flds : list (string * fmt)) (b : BytesIO) : outcome BytesIO :=
  size <- get_size flds ;;
  Ok (seek_cur size b).

(** The body of [for i in self.fields] in [encode]: the bytes that the
    field adds to [payload]. *)
Definition encode_field (n : node) (field : string * fmt) : outcome bytes :=
  value <- getitem (fst field) n ;;
  fmt1 <- match snd field with
          | Fs => length <- py_len value ;; Ok (FNs length)
          | Fz => length <- py_len value ;; Ok (FNs (length + 1))
          | f => Ok f
          end ;;
  let value := match value with
               | VStr s => VBytes (bytes_of_str s)
               | v => v
               end in
  pack fmt1 value.

Fixpoint encode_fields (flds : list (string * fmt)) (n : node) : outcome bytes :=
  match flds with
  | [] => Ok []
  | f :: t => a <- encode_field n f ;; r <- encode_fields t n ;; Ok (a ++ r)
  end.

(** [msg_class(self.buf, parent=self)], [nla['header']['type'] = msg_type],
    [nla.setvalue(i[1])] and [nla.encode()]: from [i[1]] and [msg_type]
    to the encoded [nla]. *)
Definition child_encoder : Type :=
  value -> Z -> BytesIO -> outcome (node * BytesIO).

(** [self.r_nla_map[name]]: a later entry of [nla_map] replaces an
    earlier one of the same name. *)
Fixpoint r_lookup (name : string) (k : Z) (tbl : list (string * child_encoder))
  : option (child_encoder * Z) :=
  match tbl with
  | [] => None
  | (name', e) :: t =>
      match r_lookup name (k + 1) t with
      | Some r => Some r
      | None => if String.eqb name name' then Some (e, k) else None
      end
  end.

(** [i.append(nla)] or [i[2] = nla] *)
Definition record_encoded (nla : node) (i : attr) : attr :=
  match a_rest i with
  | [] => mkAttr (a_name i) (a_value i) [VNode nla]
  | [_] => mkAttr (a_name i) (a_value i) [VNode nla]
  | _ => i
  end.

Fixpoint encode_nlas_loop (tbl : list (string * child_encoder))
         (attrs : list attr) (b : BytesIO) : outcome (list attr * BytesIO) :=
  match attrs with
  | [] => Ok ([], b)
  | i :: t =>
      '(i, b) <- match r_lookup (a_name i) 0 tbl with
                 | Some (msg_class, msg_type) =>
                     '(nla, b) <- msg_class (a_value i) msg_type b ;;
                     Ok (record_encoded nla i, b)
                 | None => Ok (i, b)
                 end ;;
      '(t, b) <- encode_nlas_loop tbl t b ;;
      Ok (i :: t, b)
  end.

Definition encode_nlas (tbl : list (string * child_encoder))
           (n : node) (b : BytesIO) : outcome (node * BytesIO) :=
  attrs <- get_attrs_list n ;;
  '(attrs, b) <- encode_nlas_loop tbl attrs b ;;
  Ok (set_attrs (Some attrs) n, b).

(** [self.update_length(start, diff)]; [henc] is [encode] of the header
    class. *)
Definition update_length (henc : node -> BytesIO -> outcome (node * BytesIO))
           (start diff : Z) (n : node) (b : BytesIO) : outcome (node * BytesIO) :=
  let save := tell b in
  h <- get_header n ;;
  let h := setitem "length" (VInt (save - start - diff)) h in
  b <- seek start b ;;
  '(h, b) <- henc h b ;;
  b <- seek save b ;;
  Ok (set_header (Some h) n, b).

(** The padding after the field block: [diff] before the attribute chain
    is written. *)
Definition field_pad (payload : bytes) : Z :=
  NLMSG_ALIGN (len payload) - len payload.

(** [nlmsg_base.encode], given the fields of the header class with its
    [encode], and the by-name table of the class. *)
Definition encode_base (flds : list (string * fmt))
           (hdr : option (list (string * fmt)
                          * (node -> BytesIO -> outcome (node * BytesIO))))
           (tbl : list (string * child_encoder))
           (n : node) (b : BytesIO) : outcome (node * BytesIO) :=
  let init := tell b in
  b <- match hdr with
       | Some (hflds, _) => _ <- get_header n ;; reserve hflds b
       | None => Ok b
       end ;;
  '(diff, b) <-
    (if negb (is_none (getvalue n)) then
       payload <- encode_fields flds n ;;
       let diff := field_pad payload in
       Ok (diff, write (zeros diff) (write payload b))
     else Ok (0, b)) ;;
  '(diff, n, b) <-
    match tbl with
    | [] => Ok (diff, n, b)
    | _ => '(n, b) <- encode_nlas tbl n b ;; Ok (0, n, b)
    end ;;
  match hdr with
  | Some (_, henc) => update_length henc init diff n b
  | None => Ok (n, b)
  end.

(** What [asciiz] does before [nla_base.encode(self)]. *)
Definition encode_override (o : hook) (n : node) : outcome node :=
  match o with
  | AtomAsciiz =>
      v <- getitem "value" n ;;
      match v with
      | VStr s => Ok (setitem "value" (VBytes (bytes_of_str s)) n)
      | _ => Ok n
      end
  | _ => Ok n
  end.

(** [nla['header']['type'] = msg_type] *)
Definition set_header_type (msg_type : Z) (nla : node) : outcome node :=
  h <- get_header nla ;;
  Ok (set_header (Some (setitem "type" (VInt msg_type) h)) nla).

(** [self.encode()] for an instance [n] of class [c] over the buffer [b]. *)
Fixpoint encode (c : schema) (n : node) (b : BytesIO) {struct c}
  : outcome (node * BytesIO) :=
  match c with
  | Schema name flds hdr nmap o =>
      n <- encode_override o n ;;
      encode_base flds
        match hdr with
        | Some h => Some (fields h, encode h)
        | None => None
        end
        (map (fun ks : string * schema =>
                let '(k, s) := ks in
                (k, (fun v msg_type b =>
                       nla <- set_header_type msg_type (init_node s 0 false) ;;
                       encode s (setvalue v nla) b) : child_encoder))
             nmap)
        n b
  end.

(** [c(buf).decode()] on a buffer holding [bs], cursor at 0. *)
Definition decode_bytes (c : schema) (debug : bool) (bs : bytes)
  : outcome (node * BytesIO) :=
  decode c (init_node c 0 debug) (buf_of bs).

(** Decode [bs], then encode the node into a fresh buffer: the bytes of
    that buffer. *)
Definition roundtrip (c : schema) (bs : bytes) : outcome bytes :=
  '(n, _) <- decode_bytes c false bs ;;
  '(_, b) <- encode c n new_buf ;;
  Ok (data b).

(** ** The attribute lookup: get_attrs, get_attr, get_encoded *)

(** [fmt_map[fmt]] *)
Definition fmt_map (fmt : string) : outcome nat :=
  if String.eqb fmt "raw" then Ok 1%nat
  else if String.eqb fmt "encoded" then Ok 2%nat
  else Raise KeyError.

(** [i[k]] for an entry [i] of ['attrs'] and [1 <= k]. *)
Definition entry_item (k : nat) (i : attr) : outcome value :=
  match nth_error (a_value i :: a_rest i) (k - 1) with
  | Some v => Ok v
  | None => Raise IndexError
  end.

(** The list comprehension of [get_attrs]. *)
Fixpoint select_attrs (name : string) (fmt : string) (l : list attr)
  : outcome (list value) :=
  match l with
  | [] => Ok []
  | i :: t =>
      if String.eqb (a_name i) name then
        k <- fmt_map fmt ;;
        v <- entry_item k i ;;
        r <- select_attrs name fmt t ;;
        Ok (v :: r)
      else select_attrs name fmt t
  end.

Definition get_attrs (n : node) (name : string) (fmt : string)
  : outcome (list value) :=
  attrs <- get_attrs_list n ;;
  select_attrs name fmt attrs.

Definition get_attr (n : node) (name : string) (default : value) (fmt : string)
  : outcome value :=
  match get_attrs n name fmt with
  | Raise KeyError => Ok default
  | Raise e => Raise e
  | OutOfFuel => OutOfFuel
  | Ok [] => Ok default
  | Ok (v :: _) => Ok v
  end.

Definition get_encoded (n : node) (name : string) (default : value)
  : outcome value :=
  get_attr n name default "encoded".

(** ** Vocabulary of the statements *)

(** The entries of a list of attributes that [name] selects, in the
    order of the list. *)
Definition matching (name : string) (l : list attr) : list attr :=
  filter (fun i => String.eqb (a_name i) name) l.

(** The entries of ['attrs'], none when the key is absent. *)
Definition attrs_of (n : node) : list attr :=
  match n_attrs n with Some l => l | None => [] end.

(** Every entry of ['attrs'] is a two-element list. *)
Definition two_element_entries (n : node) : Prop :=
  Forall (fun i => a_rest i = []) (attrs_of n).

(** [decode] of the header class and the by-type table of a class, as
    [decode] passes them to [decode_base]. *)
Definition header_decoder (c : schema)
  : option (node -> BytesIO -> outcome (node * BytesIO)) :=
  match header c with Some h => Some (decode h) | None => None end.

Definition t_nla_map (c : schema) : list (string * child_decoder) :=
  map (fun ks : string * schema =>
         let '(k, s) := ks in
         (k, (fun debug length b =>
                decode s (init_node s length debug) b) : child_decoder))
      (nla_map c).

(** A generic netlink message without attributes: 20 bytes. *)
Definition genl_only : bytes :=
  [x14; x00; x00; x00; x10; x00; x00; x00; x00; x00; x00; x00; x00; x00; x00; x00;
   x01; x02; x00; x00].

(** The same message followed by two [CTRL_ATTR_MCAST_GROUPS] attributes
    with the payloads [01 00 00 00] and [02 00 00 00]. *)
Definition two_mcast_groups : bytes :=
  [x24; x00; x00; x00; x10; x00; x00; x00; x00; x00; x00; x00; x00; x00; x00; x00;
   x01; x02; x00; x00;
   x08; x00; x07; x00; x01; x00; x00; x00;
   x08; x00; x07; x00; x02; x00; x00; x00].

(** The states of the attribute loop of [decode]: the loop is entered
    after [self.buf.seek(NLMSG_ALIGN(self.buf.tell()))], and a pass
    through its body, taken when the guard holds, leads to the next
    state. *)
Inductive chain_state (tbl : list (string * child_decoder))
  : node -> BytesIO -> Prop :=
| chain_enter (n : node) (b b0 : BytesIO) :
    seek (NLMSG_ALIGN (tell b)) b = Ok b0 ->
    chain_state tbl n b0
| chain_step (n n' : node) (b b' : BytesIO) :
    chain_state tbl n b ->
    tell b < n_offset n + n_length n ->
    nla_iter tbl n b = Ok (n', b') ->
    chain_state tbl n' b'.

(** No decoder of the table runs out of fuel. *)
Definition total_table (tbl : list (string * child_decoder)) : Prop :=
  Forall (fun kd => forall debug length b, snd kd debug length b <> OutOfFuel) tbl.

(** Scenario S1, with the lengths that its bytes have: a [ctrlmsg] of 28
    bytes with one [CTRL_ATTR_FAMILY_ID] attribute of value 1. *)
Definition family_id_message : bytes :=
  [x1c; x00; x00; x00; x10; x00; x00; x00; x00; x00; x00; x00; x00; x00; x00; x00;
   x01; x02; x00; x00;
   x06; x00; x01; x00; x01; x00; x00; x00].

(** A [ctrlmsg] of 24 bytes whose only attribute is a
    [CTRL_ATTR_FAMILY_NAME] of length 4: an [asciiz] without payload. *)
Definition empty_name_message : bytes :=
  [x18; x00; x00; x00; x10; x00; x00; x00; x00; x00; x00; x00; x00; x00; x00; x00;
   x01; x02; x00; x00;
   x04; x00; x02; x00].

(** A [ctrlmsg] instance at the start of its attribute chain: the node
    lies at offset 0 and has the length [length]. *)
Definition ctrlmsg_at_chain (length : Z) : node :=
  set_length length (init_node ctrlmsg 0 false).

(** What the debug mode adds to the header of a decoded node. *)
Definition debug_header (name : string) (raw : bytes) (offset length : Z)
           (h : node) : node :=
  setitem "length" (VInt length)
    (setitem "offset" (VInt offset)
       (setitem "raw" (VStr (hexdump raw))
          (setitem "class" (VStr name) h))).

(** The node that [ctrlmsg] decodes from [family_id_message]. *)
Definition family_id_node : node :=
  Eval vm_compute in
    match decode_bytes ctrlmsg false family_id_message with
    | Ok (n, _) => n
    | _ => init_node ctrlmsg 0 false
    end.

(** No decoder of the table changes the bytes of the buffer. *)
Definition reading_table (tbl : list (string * child_decoder)) : Prop :=
  Forall (fun kd => forall debug length b n' b',
              snd kd debug length b = Ok (n', b') -> data b' = data b) tbl.

(** A class with the 16-byte netlink header and an ['s'] field. *)
Definition nlmsg_blob : schema :=
  Schema "nlmsg_blob" [("value", Fs)] (Some nlmsg_header) [] Base.

(** Two messages of [nlmsg_blob] in one buffer; each has 20 bytes, a
    header and a payload of 4 bytes. *)
Definition two_blobs : bytes :=
  [x14; x00; x00; x00; x10; x00; x00; x00; x00; x00; x00; x00; x00; x00; x00; x00;
   x61; x62; x63; x64;
   x14; x00; x00; x00; x10; x00; x00; x00; x00; x00; x00; x00; x00; x00; x00; x00;
   x65; x66; x67; x68].

(** A class with the header of an attribute, a field block of one byte
    and an attribute chain. *)
Definition family_msg : schema :=
  Schema "family_msg" [("family", FB)] (Some nla_header)
    [("FAMILY_ATTR_ID", uint8)] Base.

(** An instance of [family_msg] to encode: the family 2 and one
    attribute of value 1. *)
Definition family_node : node :=
  set_attrs (Some [mkAttr "FAMILY_ATTR_ID" (VInt 1) []])
    (setitem "family" (VInt 2) (init_node family_msg 0 false)).

(** The header and the by-name table of a class, as [encode] passes them
    to [encode_base]. *)
Definition header_encoder (c : schema)
  : option (list (string * fmt) * (node -> BytesIO -> outcome (node * BytesIO))) :=
  match header c with Some h => Some (fields h, encode h) | None => None end.

Definition child_encoder_of (s : schema) : child_encoder :=
  fun v msg_type b =>
    nla <- set_header_type msg_type (init_node s 0 false) ;;
    encode s (setvalue v nla) b.

Definition r_nla_map (c : schema) : list (string * child_encoder) :=
  map (fun ks : string * schema => let '(k, s) := ks in (k, child_encoder_of s))
      (nla_map c).

(** [diff] when [encode] calls [update_length]: 0 for a class with an
    [nla_map], and for a class without, the padding that followed the
    field block ([n] is the node after the override of the class). *)
Definition encode_diff (c : schema) (n : node) : Z :=
  match nla_map c with
  | _ :: _ => 0
  | [] =>
      if is_none (getvalue n) then 0
      else match encode_fields (fields c) n with
           | Ok payload => field_pad payload
           | _ => 0
           end
  end.

(** ** Well-formed messages *)

(** An attribute on the wire: the header with the length of header and
    payload, the payload, and zero bytes up to a multiple of 4. *)
Definition wire_attr (msg_type : Z) (payload : bytes) : bytes :=
  le_encode 2 (4 + len payload) ++ le_encode 2 msg_type
    ++ payload ++ zeros (field_pad payload).

(** The atoms whose decoded value determines the payload, with the
    payloads they take and the values they give: an empty [none], the
    unsigned integers at their width, [cdata], and an [asciiz] with its
    terminator. *)
Inductive faithful : schema -> bytes -> value -> Prop :=
| faithful_none : faithful none [] VNone
| faithful_uint8 (p : bytes) :
    len p = 1 -> faithful uint8 p (VInt (le_decode p))
| faithful_uint16 (p : bytes) :
    len p = 2 -> faithful uint16 p (VInt (le_decode p))
| faithful_uint32 (p : bytes) :
    len p = 4 -> faithful uint32 p (VInt (le_decode p))
| faithful_cdata (p : bytes) : faithful cdata p (VBytes p)
| faithful_asciiz (q : bytes) :
    faithful asciiz (q ++ [x00])
      (if utf8_valid q then VStr (str_of_bytes q) else VBytes q).

(** A chain of attributes of the class [c] on the wire, with the entries
    it decodes to: every attribute has a type that the [nla_map] of [c]
    maps to a faithful atom, and a length that fits its header. *)
Inductive wf_chain (c : schema) : bytes -> list attr -> Prop :=
| wf_chain_nil : wf_chain c [] []
| wf_chain_cons (k : nat) (name : string) (s : schema) (payload : bytes)
                (v : value) (rest : bytes) (entries : list attr) :
    nth_error (nla_map c) k = Some (name, s) ->
    faithful s payload v ->
    4 + len payload < 65536 ->
    Z.of_nat k < 65536 ->
    wf_chain c rest entries ->
    wf_chain c (wire_attr (Z.of_nat k) payload ++ rest)
             (mkAttr name v [] :: entries).

(** A well-formed generic netlink message of the class [c]: the netlink
    header, whose length is the length of the message, the fields [cmd],
    [version] and [reserved], and a chain of at least one attribute. *)
Inductive well_formed (c : schema) (b : bytes) : Prop :=
| wf_message (ty fl sq pid cmd ver res chain : bytes) (entries : list attr) :
    len ty = 2 -> len fl = 2 -> len sq = 4 -> len pid = 4 ->
    len cmd = 1 -> len ver = 1 -> len res = 2 ->
    wf_chain c chain entries ->
    chain <> [] ->
    len b < 2 ^ 32 ->
    b = le_encode 4 (len b) ++ ty ++ fl ++ sq ++ pid ++ cmd ++ ver ++ res ++ chain ->
    well_formed c b.

(** The classes of generic netlink messages with attributes: the header
    and the fields of [genlmsg], no overridden method, and an [nla_map]
    without a repeated name. *)
Definition genl_family (c : schema) : Prop :=
  header c = Some nlmsg_header
  /\ fields c = genlmsg_fields
  /\ override c = Base
  /\ NoDup (map fst (nla_map c)).

Definition is_int (f : fmt) : bool :=
  match f with FB | FH | FI | FQ => true | _ => false end.

(** The node after the integer fields [flds] were decoded from [chunks]. *)
Fixpoint store_ints (flds : list (string * fmt)) (chunks : list bytes) (n : node)
  : node :=
  match flds, chunks with
  | f :: fl, ch :: cl => store_ints fl cl (setitem (fst f) (VInt (le_decode ch)) n)
  | _, _ => n
  end.

(** The node that a generic netlink message decodes to: the fields of
    the header, of which ['length'] is [total], the fields [cmd],
    [version] and [reserved], the entries of the chain, and the raw
    bytes. *)
Definition genl_node (total : Z) (ty fl sq pid cmd ver res : bytes)
           (entries : list attr) (raw : bytes) : node :=
  mkNode [("cmd", VInt (le_decode cmd)); ("version", VInt (le_decode ver));
          ("reserved", VInt (le_decode res))]
    (Some (mkNode [("length", VInt total); ("type", VInt (le_decode ty));
                   ("flags", VInt (le_decode fl));
                   ("sequence_number", VInt (le_decode sq));
                   ("pid", VInt (le_decode pid))]
             None None NotInitialized None 0 0 false))
    (Some entries) NotInitialized (Some raw) total 0 false.

(** A [ctrlmsg] of 28 bytes with one [CTRL_ATTR_VERSION] attribute of
    payload [03 00 00 00]; [ctrlmsg] maps the type to [hex]. *)
Definition version_message : bytes :=
  [x1c; x00; x00; x00; x10; x00; x00; x00; x00; x00; x00; x00; x00; x00; x00; x00;
   x01; x02; x00; x00;
   x08; x00; x03; x00; x03; x00; x00; x00].


(** A [ctrlmsg] of 24 bytes whose only attribute is a
    [CTRL_ATTR_FAMILY_NAME] with the length 3 in its header, less than
    the header itself. *)
Definition short_length_message : bytes :=
  [x18; x00; x00; x00; x10; x00; x00; x00; x00; x00; x00; x00; x00; x00; x00; x00;
   x01; x02; x00; x00;
   x03; x00; x02; x00].

(** A [ctrlmsg] of 28 bytes whose only attribute has the type 9, which
    the [nla_map] of [ctrlmsg] does not list, and the length 64 in its
    header, more than the 8 bytes left in the message. *)
Definition oversized_unknown_message : bytes :=
  [x1c; x00; x00; x00; x10; x00; x00; x00; x00; x00; x00; x00; x00; x00; x00; x00;
   x01; x02; x00; x00;
   x40; x00; x09; x00; x01; x00; x00; x00].

(** A [ctrlmsg] of 44 bytes with three attributes, in this order: a
    [CTRL_ATTR_MCAST_GROUPS] of payload [01 00 00 00], a
    [CTRL_ATTR_FAMILY_ID] of value 5, and a [CTRL_ATTR_MCAST_GROUPS] of
    payload [02 00 00 00]. *)
Definition mixed_attributes_message : bytes :=
  [x2c; x00; x00; x00; x10; x00; x00; x00; x00; x00; x00; x00; x00; x00; x00; x00;
   x01; x02; x00; x00;
   x08; x00; x07; x00; x01; x00; x00; x00;
   x06; x00; x01; x00; x05; x00; x00; x00;
   x08; x00; x07; x00; x02; x00; x00; x00].

(** The nodes that [ctrlmsg] decodes from [mixed_attributes_message] and
    from [genl_only]. *)
Definition mixed_attributes_node : node :=
  Eval vm_compute in
    match decode_bytes ctrlmsg false mixed_attributes_message with
    | Ok (n, _) => n
    | _ => init_node ctrlmsg 0 false
    end.

Definition genl_only_node : node :=
  Eval vm_compute in
    match decode_bytes ctrlmsg false genl_only with
    | Ok (n, _) => n
    | _ => init_node ctrlmsg 0 false
    end.

(** * Properties *)

(** ** Outcomes *)

Lemma bind_Ok (A B : Type) (m : outcome A) (k : A -> outcome B) (r : B) :
  bind m k = Ok r -> exists a, m = Ok a /\ k a = Ok r.
Proof. destruct m; simpl; intros H; try discriminate. eauto. Qed.

Lemma reraise_Ok (A : Type) (w : exn -> exn) (m : outcome A) (r : A) :
  reraise w m = Ok r -> m = Ok r.
Proof. destruct m; simpl; intros H; try discriminate. exact H. Qed.

Lemma bind_fuel (A B : Type) (m : outcome A) (k : A -> outcome B) :
  m <> OutOfFuel -> (forall a, m = Ok a -> k a <> OutOfFuel) ->
  bind m k <> OutOfFuel.
Proof. destruct m; simpl; intros Hm Hk; auto. discriminate. Qed.

Lemma reraise_fuel (A : Type) (w : exn -> exn) (m : outcome A) :
  m <> OutOfFuel -> reraise w m <> OutOfFuel.
Proof. destruct m; simpl; intros H; auto; discriminate. Qed.

(** Splits a hypothesis [bind m k = Ok r] into its two steps. *)
Ltac inv_bind H :=
  let a := fresh "a" in
  let H1 := fresh "E" in
  let H2 := fresh "K" in
  apply bind_Ok in H; destruct H as (a & H1 & H2); rename H2 into H.

Tactic Notation "split_bind" hyp(H) "as" simple_intropattern(p) ident(E) :=
  let H2 := fresh "K" in
  apply bind_Ok in H; destruct H as (p & E & H2); rename H2 into H.

(** ** NLMSG_ALIGN *)

Lemma NLMSG_ALIGN_div (l : Z) : NLMSG_ALIGN l = 4 * ((l + 3) / 4).
Proof.
  unfold NLMSG_ALIGN, NLMSG_ALIGNTO.
  replace (l + 4 - 1) with (l + 3) by lia.
  rewrite <- Z.ldiff_land.
  change (4 - 1) with (Z.ones 2).
  rewrite Z.ldiff_ones_r by lia.
  rewrite Z.shiftr_div_pow2, Z.shiftl_mul_pow2 by lia.
  change (2 ^ 2) with 4. lia.
Qed.

Lemma NLMSG_ALIGN_bounds (l : Z) : l <= NLMSG_ALIGN l < l + 4.
Proof. rewrite NLMSG_ALIGN_div. Z.div_mod_to_equations. lia. Qed.

Lemma NLMSG_ALIGN_mod (l : Z) : NLMSG_ALIGN l mod 4 = 0.
Proof.
  rewrite NLMSG_ALIGN_div, Z.mul_comm. apply Z.mod_mul. lia.
Qed.

Lemma NLMSG_ALIGN_aligned (l : Z) : l mod 4 = 0 -> NLMSG_ALIGN l = l.
Proof. intros H. rewrite NLMSG_ALIGN_div. Z.div_mod_to_equations. lia. Qed.

Lemma NLMSG_ALIGN_add (a l : Z) :
  a mod 4 = 0 -> NLMSG_ALIGN (a + l) = a + NLMSG_ALIGN l.
Proof. intros H. rewrite !NLMSG_ALIGN_div. Z.div_mod_to_equations. lia. Qed.

(** ** The attribute lookup *)

Lemma select_attrs_raw (name : string) (l : list attr) :
  select_attrs name "raw" l = Ok (map a_value (matching name l)).
Proof.
  induction l as [|i t IH]; simpl; [reflexivity|].
  destruct (String.eqb (a_name i) name); simpl; [|exact IH].
  rewrite IH. reflexivity.
Qed.

Lemma select_attrs_none (name fmt : string) (l : list attr) :
  matching name l = [] -> select_attrs name fmt l = Ok [].
Proof.
  induction l as [|i t IH]; simpl; [reflexivity|].
  destruct (String.eqb (a_name i) name); simpl; [discriminate|exact IH].
Qed.

(** C9.  [get_attr(name, default)] returns the value of the first entry
    of ['attrs'] named [name], in the order of the list (wire order
    after a decode), or [default] when there is none, also when the
    node has no ['attrs'] key.  On a node that has the key,
    [get_attrs(name)] returns the values of all the entries named
    [name], in that order; on a node without the key, which is what
    [decode] leaves of a message without attributes, [get_attrs] raises
    [KeyError], the error that [get_attr] catches. *)
Theorem get_attr_first_get_attrs_all (n : node) (name : string) (default : value) :
  get_attr n name default "raw"
  = Ok (hd default (map a_value (matching name (attrs_of n))))
  /\ (forall l, n_attrs n = Some l ->
      get_attrs n name "raw" = Ok (map a_value (matching name l)))
  /\ (n_attrs n = None ->
      get_attrs n name "raw" = Raise KeyError
      /\ get_attr n name default "raw" = Ok default).
Proof.
  split; [|split].
  - unfold get_attr, get_attrs, get_attrs_list, attrs_of.
    destruct (n_attrs n) as [l|]; simpl; [|reflexivity].
    rewrite select_attrs_raw.
    destruct (map a_value (matching name l)); reflexivity.
  - intros l Hl. unfold get_attrs, get_attrs_list. rewrite Hl. simpl.
    apply select_attrs_raw.
  - intros Hn. unfold get_attr, get_attrs, get_attrs_list. rewrite Hn.
    split; reflexivity.
Qed.

Lemma get_attr_first_get_attrs_all_witness :
  decode_bytes ctrlmsg false mixed_attributes_message
  = Ok (mixed_attributes_node, mkBuf mixed_attributes_message 44)
  /\ get_attr mixed_attributes_node "CTRL_ATTR_MCAST_GROUPS" VNone "raw"
     = Ok (VStr "01:00:00:00")
  /\ get_attrs mixed_attributes_node "CTRL_ATTR_MCAST_GROUPS" "raw"
     = Ok [VStr "01:00:00:00"; VStr "02:00:00:00"]
  /\ get_attr mixed_attributes_node "CTRL_ATTR_OPS" (VInt 7) "raw" = Ok (VInt 7)
  /\ decode_bytes ctrlmsg false genl_only = Ok (genl_only_node, mkBuf genl_only 20)
  /\ get_attrs genl_only_node "CTRL_ATTR_FAMILY_ID" "raw" = Raise KeyError
  /\ get_attr genl_only_node "CTRL_ATTR_FAMILY_ID" VNone "raw" = Ok VNone.
Proof.
  destruct (get_attr_first_get_attrs_all mixed_attributes_node
              "CTRL_ATTR_MCAST_GROUPS" VNone) as (Hfirst & Hall & _).
  destruct (get_attr_first_get_attrs_all mixed_attributes_node
              "CTRL_ATTR_OPS" (VInt 7)) as (Hdefault & _ & _).
  destruct (get_attr_first_get_attrs_all genl_only_node
              "CTRL_ATTR_FAMILY_ID" VNone) as (_ & _ & Hmissing).
  split; [vm_compute; reflexivity|].
  split; [exact Hfirst|].
  split; [exact (Hall _ eq_refl)|].
  split; [exact Hdefault|].
  split; [vm_compute; reflexivity|].
  exact (Hmissing eq_refl).
Defined.

(** C9, the failing input: the node decoded from a message without
    attributes has no ['attrs'] key, and [get_attrs] raises [KeyError]
    on it. *)
Lemma get_attrs_without_attrs_raises :
  exists n b,
    decode_bytes ctrlmsg false genl_only = Ok (n, b)
    /\ get_attrs n "CTRL_ATTR_FAMILY_ID" "raw" = Raise KeyError.
Proof.
  eexists; eexists; split; [vm_compute; reflexivity | vm_compute; reflexivity].
Qed.

(** Scenario S6: two attributes of one name on the wire. *)
Example duplicate_attributes :
  exists n b,
    decode_bytes ctrlmsg false two_mcast_groups = Ok (n, b)
    /\ get_attr n "CTRL_ATTR_MCAST_GROUPS" VNone "raw" = Ok (VStr "01:00:00:00")
    /\ get_attrs n "CTRL_ATTR_MCAST_GROUPS" "raw"
       = Ok [VStr "01:00:00:00"; VStr "02:00:00:00"].
Proof.
  eexists; eexists; split; [vm_compute; reflexivity | ].
  split; vm_compute; reflexivity.
Qed.

(** ** Classes: unfolding and induction *)

Lemma decode_eq (c : schema) (n : node) (b : BytesIO) :
  decode c n b
  = ('(n, b) <- decode_base (cname c) (fields c) (header_decoder c) (t_nla_map c) n b ;;
     n <- decode_override (override c) n ;;
     Ok (n, b)).
Proof. destruct c; reflexivity. Qed.

Lemma schema_induction (P : schema -> Prop)
  (step : forall name flds hdr nmap o,
      match hdr with Some h => P h | None => True end ->
      Forall (fun ks => P (snd ks)) nmap ->
      P (Schema name flds hdr nmap o)) :
  forall c, P c.
Proof.
  fix IH 1. intros [name flds hdr nmap o]. apply step.
  - destruct hdr as [h|]; [apply IH | exact I].
  - induction nmap as [|[k s] t IHt]; constructor; [apply IH | exact IHt].
Qed.

Lemma t_nla_map_nth (c : schema) (k : nat) (name : string) (dec : child_decoder) :
  nth_error (t_nla_map c) k = Some (name, dec) ->
  exists s, nth_error (nla_map c) k = Some (name, s)
            /\ dec = fun debug length b => decode s (init_node s length debug) b.
Proof.
  unfold t_nla_map. rewrite nth_error_map.
  destruct (nth_error (nla_map c) k) as [[k' s]|]; simpl; [|discriminate].
  intros H. injection H as <- <-. eauto.
Qed.

(** ** The attribute loop *)

Lemma seek_Ok (p : Z) (b b' : BytesIO) :
  seek p b = Ok b' -> 0 <= p /\ b' = mkBuf (data b) p.
Proof.
  unfold seek. destruct (Z.ltb_spec p 0) as [Hp|Hp]; [discriminate|].
  intros E. injection E as <-. split; [lia|reflexivity].
Qed.

Lemma seek_nonneg (p : Z) (b : BytesIO) :
  0 <= p -> seek p b = Ok (mkBuf (data b) p).
Proof.
  unfold seek. intros H. destruct (Z.ltb_spec p 0) as [Hp|Hp]; [lia|reflexivity].
Qed.

Lemma seek_fuel (p : Z) (b : BytesIO) : seek p b <> OutOfFuel.
Proof. unfold seek. destruct (p <? 0); discriminate. Qed.

Lemma peek_header_fuel (b : BytesIO) : peek_header b <> OutOfFuel.
Proof. unfold peek_header. destruct (len _ =? 4); discriminate. Qed.

(** What a completed iteration did: it peeked a header, it appended at
    most one entry, and it left the cursor [NLMSG_ALIGN] of the clamped
    length after its start. *)
Lemma nla_iter_Ok (tbl : list (string * child_decoder))
      (n n' : node) (b b' : BytesIO) :
  nla_iter tbl n b = Ok (n', b') ->
  exists length msg_type,
    peek_header b = Ok (length, msg_type)
    /\ tell b' = tell b + NLMSG_ALIGN (clamp length n (tell b))
    /\ 0 <= tell b'
    /\ (n' = n
        \/ exists msg_name msg_value l,
            n_attrs n = Some l
            /\ n' = set_attrs
                      (Some (l ++ [new_entry (n_debug n) msg_name msg_value msg_type
                                      (clamp length n (tell b)) (tell b)])) n).
Proof.
  unfold nla_iter. intros H.
  inv_bind H. destruct a as [length msg_type].
  inv_bind H. apply seek_Ok in E0. destruct E0 as [Hpos ->].
  cbn [tell pos] in H.
  inv_bind H. destruct a as [n1 b1].
  inv_bind H. apply seek_Ok in E1. destruct E1 as [Hpos' ->].
  injection H as <- <-.
  exists length, msg_type. split; [exact E|]. split; [reflexivity|].
  split; [exact Hpos'|].
  destruct (nth_error tbl (Z.to_nat msg_type)) as [[msg_name msg_class]|].
  - right. inv_bind E0. destruct a as [msg_value b2].
    inv_bind E0. injection E0 as <- <-.
    unfold get_attrs_list in E2.
    destruct (n_attrs n) as [l|] eqn:Hl; [|discriminate].
    injection E2 as <-. exists msg_name, msg_value, l. split; reflexivity.
  - left. injection E0 as <- <-. reflexivity.
Qed.

Lemma clamp_positive (length : Z) (n : node) (init : Z) :
  init < n_offset n + n_length n -> 1 <= clamp length n init.
Proof. unfold clamp. lia. Qed.

Lemma NLMSG_ALIGN_positive (l : Z) : 1 <= l -> 4 <= NLMSG_ALIGN l.
Proof. intros H. rewrite NLMSG_ALIGN_div. Z.div_mod_to_equations. lia. Qed.

Lemma nla_iter_advance (tbl : list (string * child_decoder))
      (n n' : node) (b b' : BytesIO) :
  tell b < n_offset n + n_length n ->
  nla_iter tbl n b = Ok (n', b') ->
  tell b + 4 <= tell b'
  /\ n_offset n' = n_offset n /\ n_length n' = n_length n
  /\ n_debug n' = n_debug n.
Proof.
  intros Hguard H. apply nla_iter_Ok in H.
  destruct H as (length & msg_type & _ & Htell & _ & Hn).
  split.
  - rewrite Htell.
    pose proof (NLMSG_ALIGN_positive _ (clamp_positive length n (tell b) Hguard)).
    lia.
  - destruct Hn as [-> | (msg_name & msg_value & l & _ & ->)];
      repeat split; reflexivity.
Qed.

Lemma chain_state_aligned (tbl : list (string * child_decoder))
      (n : node) (b : BytesIO) :
  chain_state tbl n b -> tell b mod 4 = 0.
Proof.
  induction 1 as [n b b0 Hseek | n n' b b' _ IH _ Hiter].
  - apply seek_Ok in Hseek. destruct Hseek as [_ ->]. cbn [tell pos].
    apply NLMSG_ALIGN_mod.
  - apply nla_iter_Ok in Hiter.
    destruct Hiter as (length & msg_type & _ & Htell & _).
    rewrite Htell.
    pose proof (NLMSG_ALIGN_mod (clamp length n (tell b))).
    Z.div_mod_to_equations. lia.
Qed.

(** C2.  In the attribute loop of [decode], a pass through the body that
    starts at [init = tell b] peeks a header [(length, msg_type)] there,
    and whatever it does with the attribute, it leaves the cursor at
    [NLMSG_ALIGN (init + min (max length 4) (node_end - init))], where
    [node_end] is [offset + length] of the node. *)
Theorem attribute_cursor_advance (tbl : list (string * child_decoder))
        (n n' : node) (b b' : BytesIO) :
  chain_state tbl n b ->
  tell b < n_offset n + n_length n ->
  nla_iter tbl n b = Ok (n', b') ->
  exists length msg_type,
    peek_header b = Ok (length, msg_type)
    /\ tell b'
       = NLMSG_ALIGN (tell b
                      + Z.min (Z.max length 4) (n_offset n + n_length n - tell b)).
Proof.
  intros Hchain Hguard Hiter.
  apply chain_state_aligned in Hchain.
  apply nla_iter_Ok in Hiter.
  destruct Hiter as (length & msg_type & Hpeek & Htell & _).
  exists length, msg_type. split; [exact Hpeek|].
  rewrite Htell, NLMSG_ALIGN_add by exact Hchain.
  unfold clamp. do 2 f_equal. lia.
Qed.

Lemma attribute_cursor_advance_witness :
  exists length msg_type,
    peek_header (mkBuf family_id_message 20) = Ok (length, msg_type)
    /\ tell (mkBuf family_id_message 28)
       = NLMSG_ALIGN (tell (mkBuf family_id_message 20)
                      + Z.min (Z.max length 4)
                          (n_offset (ctrlmsg_at_chain 28)
                           + n_length (ctrlmsg_at_chain 28)
                           - tell (mkBuf family_id_message 20))).
Proof.
  apply (attribute_cursor_advance (t_nla_map ctrlmsg)
           (ctrlmsg_at_chain 28)
           (set_attrs (Some [mkAttr "CTRL_ATTR_FAMILY_ID" (VInt 1) []])
              (ctrlmsg_at_chain 28))).
  - apply (chain_enter _ _ (mkBuf family_id_message 20)). vm_compute. reflexivity.
  - vm_compute. reflexivity.
  - vm_compute. reflexivity.
Defined.

Lemma read_rewind (k : Z) (b : BytesIO) :
  mkBuf (data (snd (read k b))) (tell b) = b.
Proof. destruct b; reflexivity. Qed.

(** C5.  In a pass through the body of the attribute loop that peeks
    [(length, msg_type)] at [init], the length of the attribute is
    clamped to [eff = min (max length 4) (node_end - init)], where
    [node_end] is [offset + length] of the node.  When the by-type table
    maps [msg_type] to [(msg_name, msg_class)] and the decode of the
    child raises, the pass does not raise; it appends the entry
    [msg_name] with the hex dump of the [eff] bytes at [init], and
    leaves the cursor at [init + NLMSG_ALIGN eff]; when the table has no
    entry for [msg_type], the pass appends nothing and leaves the cursor
    at the same place.  In both cases the loop goes on from there. *)
Theorem attribute_fault_is_local (tbl : list (string * child_decoder))
        (n : node) (b : BytesIO) (length msg_type : Z) (l : list attr) :
  peek_header b = Ok (length, msg_type) ->
  0 <= tell b < n_offset n + n_length n ->
  n_attrs n = Some l ->
  let init := tell b in
  let eff := Z.min (Z.max length 4) (n_offset n + n_length n - init) in
  let next := mkBuf (data b) (init + NLMSG_ALIGN eff) in
  (forall msg_name msg_class e,
      nth_error tbl (Z.to_nat msg_type) = Some (msg_name, msg_class) ->
      msg_class (n_debug n) eff b = Raise e ->
      let n' :=
        set_attrs
          (Some (l ++ [new_entry (n_debug n) msg_name
                         (VStr (hexdump (slice (data b) init (init + eff))))
                         msg_type eff init])) n in
      nla_iter tbl n b = Ok (n', next)
      /\ forall fuel,
          decode_nlas_loop (S fuel) tbl n b = decode_nlas_loop fuel tbl n' next)
  /\ (nth_error tbl (Z.to_nat msg_type) = None ->
      nla_iter tbl n b = Ok (n, next)
      /\ forall fuel,
          decode_nlas_loop (S fuel) tbl n b = decode_nlas_loop fuel tbl n next).
Proof.
  intros Hpeek [Hpos Hguard] Hattrs init eff next.
  assert (Heff : clamp length n (tell b) = eff).
  { unfold clamp. subst eff init. f_equal. lia. }
  assert (Hseek : 0 <= init + NLMSG_ALIGN eff).
  { pose proof (NLMSG_ALIGN_positive _ (clamp_positive length n (tell b) Hguard)).
    rewrite Heff in *. subst init. lia. }
  assert (Hloop : forall n', nla_iter tbl n b = Ok (n', next) ->
            forall fuel,
              decode_nlas_loop (S fuel) tbl n b = decode_nlas_loop fuel tbl n' next).
  { intros n' Hiter fuel. cbn [decode_nlas_loop].
    destruct (Z.ltb_spec (tell b) (n_offset n + n_length n)) as [_|Hge]; [|lia].
    rewrite Hiter. reflexivity. }
  split.
  - intros msg_name msg_class e Hnth Hraise n'.
    assert (Hiter : nla_iter tbl n b = Ok (n', next)).
    { unfold nla_iter. rewrite Hpeek. cbn [bind].
      rewrite seek_nonneg by exact Hpos. cbn [bind tell pos data].
      fold (tell b). rewrite read_rewind.
      rewrite Hnth, Heff. fold init. rewrite Hraise.
      rewrite seek_nonneg by exact Hpos. cbn [bind read data pos].
      unfold get_attrs_list. rewrite Hattrs. cbn [bind].
      rewrite seek_nonneg by exact Hseek. reflexivity. }
    split; [exact Hiter | exact (Hloop n' Hiter)].
  - intros Hnth.
    assert (Hiter : nla_iter tbl n b = Ok (n, next)).
    { unfold nla_iter. rewrite Hpeek. cbn [bind].
      rewrite seek_nonneg by exact Hpos. cbn [bind tell pos data].
      fold (tell b). rewrite read_rewind.
      rewrite Hnth, Heff. cbn [bind]. fold init.
      rewrite seek_nonneg by exact Hseek. reflexivity. }
    split; [exact Hiter | exact (Hloop n Hiter)].
Qed.

(** The attribute of [short_length_message] claims 3 bytes and is taken
    as 4; the one of [oversized_unknown_message] claims 64 bytes and is
    taken as the 8 bytes left in the node. *)
Lemma attribute_fault_is_local_witness :
  peek_header (mkBuf short_length_message 20) = Ok (3, 2)
  /\ nla_iter (t_nla_map ctrlmsg) (ctrlmsg_at_chain 24) (mkBuf short_length_message 20)
     = Ok (set_attrs (Some [mkAttr "CTRL_ATTR_FAMILY_NAME" (VStr "03:00:02:00") []])
             (ctrlmsg_at_chain 24),
           mkBuf short_length_message 24)
  /\ peek_header (mkBuf oversized_unknown_message 20) = Ok (64, 9)
  /\ nla_iter (t_nla_map ctrlmsg) (ctrlmsg_at_chain 28)
       (mkBuf oversized_unknown_message 20)
     = Ok (ctrlmsg_at_chain 28, mkBuf oversized_unknown_message 28).
Proof.
  assert (Hpeek : peek_header (mkBuf short_length_message 20) = Ok (3, 2))
    by (vm_compute; reflexivity).
  assert (Hpeek' : peek_header (mkBuf oversized_unknown_message 20) = Ok (64, 9))
    by (vm_compute; reflexivity).
  split; [exact Hpeek|]. split; [|split; [exact Hpeek'|]].
  - assert (Hguard : 0 <= tell (mkBuf short_length_message 20)
                     < n_offset (ctrlmsg_at_chain 24) + n_length (ctrlmsg_at_chain 24))
      by (vm_compute; split; [discriminate | reflexivity]).
    assert (Hattrs : n_attrs (ctrlmsg_at_chain 24) = Some []) by reflexivity.
    assert (Hraise :
              decode asciiz (init_node asciiz 4 false) (mkBuf short_length_message 20)
              = Raise (NetlinkDataDecodeError IndexError))
      by (vm_compute; reflexivity).
    exact (proj1 (proj1 (attribute_fault_is_local (t_nla_map ctrlmsg)
                           (ctrlmsg_at_chain 24) (mkBuf short_length_message 20)
                           3 2 [] Hpeek Hguard Hattrs)
                    "CTRL_ATTR_FAMILY_NAME"
                    (fun debug length b =>
                       decode asciiz (init_node asciiz length debug) b)
                    (NetlinkDataDecodeError IndexError)
                    eq_refl Hraise)).
  - assert (Hguard : 0 <= tell (mkBuf oversized_unknown_message 20)
                     < n_offset (ctrlmsg_at_chain 28) + n_length (ctrlmsg_at_chain 28))
      by (vm_compute; split; [discriminate | reflexivity]).
    assert (Hattrs : n_attrs (ctrlmsg_at_chain 28) = Some []) by reflexivity.
    exact (proj1 (proj2 (attribute_fault_is_local (t_nla_map ctrlmsg)
                           (ctrlmsg_at_chain 28) (mkBuf oversized_unknown_message 20)
                           64 9 [] Hpeek' Hguard Hattrs)
                    eq_refl)).
Defined.

(** ** Termination *)

Lemma nla_iter_fuel (tbl : list (string * child_decoder)) (n : node) (b : BytesIO) :
  total_table tbl -> nla_iter tbl n b <> OutOfFuel.
Proof.
  intros Htbl. unfold nla_iter.
  apply bind_fuel; [apply peek_header_fuel|]. intros [length msg_type] _.
  apply bind_fuel; [apply seek_fuel|]. intros b0 _.
  apply bind_fuel.
  - destruct (nth_error tbl (Z.to_nat msg_type)) as [[msg_name msg_class]|] eqn:Hnth;
      [|discriminate].
    apply nth_error_In in Hnth.
    pose proof (proj1 (Forall_forall _ _) Htbl _ Hnth) as Hdec. cbn [snd] in Hdec.
    apply bind_fuel.
    + specialize (Hdec (n_debug n) (clamp length n (tell b0)) b0).
      destruct (msg_class (n_debug n) (clamp length n (tell b0)) b0)
        as [[nla0 b']| |]; [discriminate| |congruence].
      apply bind_fuel; [apply seek_fuel|]. intros b1 _.
      destruct (read _ b1). discriminate.
    + intros [msg_value b1] _.
      apply bind_fuel; [unfold get_attrs_list; destruct (n_attrs n); discriminate|].
      intros; discriminate.
  - intros [n1 b1] _. apply bind_fuel; [apply seek_fuel|]. intros; discriminate.
Qed.

Lemma decode_nlas_loop_fuel (tbl : list (string * child_decoder)) :
  total_table tbl ->
  forall fuel n b,
    (Z.to_nat (n_offset n + n_length n - tell b) <= fuel)%nat ->
    decode_nlas_loop fuel tbl n b <> OutOfFuel.
Proof.
  intros Htbl. induction fuel as [|fuel IH]; intros n b Hfuel; cbn [decode_nlas_loop];
    destruct (Z.ltb_spec (tell b) (n_offset n + n_length n)) as [Hguard|Hguard];
    try discriminate.
  - lia.
  - apply bind_fuel; [apply nla_iter_fuel; exact Htbl|].
    intros [n' b'] Hiter.
    destruct (nla_iter_advance tbl n n' b b' Hguard Hiter) as (Hadv & Ho & Hl & _).
    apply IH. rewrite Ho, Hl. lia.
Qed.

Lemma decode_nlas_loop_enough (tbl : list (string * child_decoder)) :
  forall fuel fuel' n b,
    (Z.to_nat (n_offset n + n_length n - tell b) <= fuel)%nat ->
    (Z.to_nat (n_offset n + n_length n - tell b) <= fuel')%nat ->
    decode_nlas_loop fuel tbl n b = decode_nlas_loop fuel' tbl n b.
Proof.
  induction fuel as [|fuel IH]; intros fuel' n b Hfuel Hfuel';
    destruct fuel' as [|fuel']; cbn [decode_nlas_loop];
    destruct (Z.ltb_spec (tell b) (n_offset n + n_length n)) as [Hguard|Hguard];
    try reflexivity; try lia.
  destruct (nla_iter tbl n b) as [[n' b']| |] eqn:Hiter; cbn [bind]; try reflexivity.
  destruct (nla_iter_advance tbl n n' b b' Hguard Hiter) as (Hadv & Ho & Hl & _).
  apply IH; rewrite Ho, Hl; lia.
Qed.

(** Closes a goal [m <> OutOfFuel] for a term [m] without loop. *)
Ltac no_fuel :=
  repeat first
    [ discriminate
    | apply seek_fuel
    | apply reraise_fuel
    | apply bind_fuel; [|intros ? _]
    | match goal with
      | |- context [match ?x with _ => _ end] => destruct x
      end ].

Lemma decode_fields_fuel (flds : list (string * fmt)) (n : node) (b : BytesIO) :
  decode_fields flds n b <> OutOfFuel.
Proof.
  revert n b. induction flds as [|f t IH]; intros n b; cbn [decode_fields];
    [discriminate|].
  apply bind_fuel; [|intros [n' b'] _; apply IH].
  unfold decode_field, calcsize, unpack, calcsize, last_item. no_fuel.
Qed.

Lemma decode_header_fuel (name : string)
      (hdec : node -> BytesIO -> outcome (node * BytesIO)) (n : node) (b : BytesIO) :
  (forall h b, hdec h b <> OutOfFuel) ->
  decode_header name hdec n b <> OutOfFuel.
Proof.
  intros Hh. unfold decode_header. apply reraise_fuel.
  apply bind_fuel; [unfold get_header; no_fuel|]. intros h _.
  apply bind_fuel; [apply Hh|]. intros [h' b'] _.
  unfold getitem, py_max4. no_fuel.
Qed.

Lemma decode_override_fuel (o : hook) (n : node) :
  decode_override o n <> OutOfFuel.
Proof. unfold decode_override, getitem. no_fuel. Qed.

Lemma decode_nlas_fuel (tbl : list (string * child_decoder)) (n : node) (b : BytesIO) :
  total_table tbl -> decode_nlas tbl n b <> OutOfFuel.
Proof.
  intros Htbl. unfold decode_nlas. apply decode_nlas_loop_fuel; [exact Htbl|lia].
Qed.

Lemma decode_base_fuel (name : string) (flds : list (string * fmt))
      (hdec : option (node -> BytesIO -> outcome (node * BytesIO)))
      (tbl : list (string * child_decoder)) (n : node) (b : BytesIO) :
  match hdec with Some hd => forall h b, hd h b <> OutOfFuel | None => True end ->
  total_table tbl ->
  decode_base name flds hdec tbl n b <> OutOfFuel.
Proof.
  intros Hh Htbl. unfold decode_base.
  apply bind_fuel.
  { destruct hdec as [hd|]; [apply decode_header_fuel; exact Hh | discriminate]. }
  intros [n1 b1] _.
  apply bind_fuel; [apply reraise_fuel, decode_fields_fuel|].
  intros [n2 b2] _.
  apply bind_fuel.
  { apply reraise_fuel. apply bind_fuel; [apply seek_fuel|]. intros b3 _.
    destruct tbl; [discriminate|]. apply decode_nlas_fuel. exact Htbl. }
  intros [n3 b3] _.
  unfold get_attrs_list, getitem, delitem. no_fuel.
Qed.

(** [decode] returns or raises, whatever the class, the node and the
    buffer. *)
Lemma decode_total : forall (c : schema) (n : node) (b : BytesIO),
    decode c n b <> OutOfFuel.
Proof.
  induction c as [name flds hdr nmap o IHh IHn] using schema_induction.
  intros n b. rewrite decode_eq. cbn [cname fields override].
  apply bind_fuel.
  - apply decode_base_fuel.
    + unfold header_decoder. cbn [header]. destruct hdr as [h|]; [exact IHh|exact I].
    + unfold total_table, t_nla_map. cbn [nla_map].
      rewrite Forall_map. eapply Forall_impl; [|exact IHn].
      intros [k s] Hs debug length b0. cbn [snd] in *. apply Hs.
  - intros [n1 b1] _.
    apply bind_fuel; [apply decode_override_fuel|]. intros; discriminate.
Qed.

Lemma t_nla_map_total (c : schema) : total_table (t_nla_map c).
Proof.
  unfold total_table, t_nla_map. rewrite Forall_map. apply Forall_forall.
  intros [k s] _ debug length b. cbn [snd]. apply decode_total.
Qed.

(** C8.  The attribute loop of a node of any class, over any buffer: a
    pass through its body returns or raises (the error that [decode]
    reports as [NetlinkNLADecodeError]); when it returns, the cursor has
    moved at least four bytes towards the end of the node, which has not
    moved; so the loop ends within the fuel that [decode_nlas] gives it,
    and more fuel does not change its result. *)
Theorem decode_nlas_terminates (c : schema) (n : node) (b : BytesIO) :
  nla_iter (t_nla_map c) n b <> OutOfFuel
  /\ (forall n' b',
        tell b < n_offset n + n_length n ->
        nla_iter (t_nla_map c) n b = Ok (n', b') ->
        tell b + 4 <= tell b'
        /\ n_offset n' + n_length n' = n_offset n + n_length n)
  /\ decode_nlas (t_nla_map c) n b <> OutOfFuel
  /\ (forall fuel,
        (Z.to_nat (n_offset n + n_length n - tell b) <= fuel)%nat ->
        decode_nlas_loop fuel (t_nla_map c) n b = decode_nlas (t_nla_map c) n b).
Proof.
  split; [apply nla_iter_fuel, t_nla_map_total|].
  split.
  { intros n' b' Hguard Hiter.
    destruct (nla_iter_advance _ n n' b b' Hguard Hiter) as (Hadv & Ho & Hl & _).
    split; [exact Hadv | rewrite Ho, Hl; reflexivity]. }
  split; [apply decode_nlas_fuel, t_nla_map_total|].
  intros fuel Hfuel. unfold decode_nlas.
  apply decode_nlas_loop_enough; [exact Hfuel | lia].
Qed.

Lemma decode_nlas_terminates_witness :
  tell (mkBuf family_id_message 20) + 4 <= tell (mkBuf family_id_message 28)
  /\ decode_nlas_loop 100 (t_nla_map ctrlmsg) (ctrlmsg_at_chain 28)
       (mkBuf family_id_message 20)
     = decode_nlas (t_nla_map ctrlmsg) (ctrlmsg_at_chain 28)
         (mkBuf family_id_message 20).
Proof.
  destruct (decode_nlas_terminates ctrlmsg (ctrlmsg_at_chain 28)
              (mkBuf family_id_message 20)) as (_ & Hstep & _ & Hfuel).
  split.
  - apply (Hstep (set_attrs (Some [mkAttr "CTRL_ATTR_FAMILY_ID" (VInt 1) []])
                    (ctrlmsg_at_chain 28))
                 (mkBuf family_id_message 28)).
    + vm_compute. reflexivity.
    + vm_compute. reflexivity.
  - apply Hfuel. vm_compute. lia.
Defined.

(** ** What each part of decode changes *)

Lemma read_data (k : Z) (b : BytesIO) : data (snd (read k b)) = data b.
Proof. reflexivity. Qed.

Lemma decode_field_frame (n n' : node) (b b' : BytesIO) (f : string * fmt) :
  decode_field n b f = Ok (n', b') ->
  n' = set_items (items n') n /\ data b' = data b.
Proof.
  unfold decode_field. intros H. inv_bind H.
  destruct (read a b) as [raw b1] eqn:Hread.
  assert (Hdata : data b1 = data b).
  { change b1 with (snd (raw, b1)). rewrite <- Hread. apply read_data. }
  destruct ((if is_sz (snd f) then len raw else a) =? len raw).
  - inv_bind H. destruct (is_z (snd f)).
    + inv_bind H. destruct (a1 =? 0); injection H as <- <-;
        (split; [destruct n; reflexivity | exact Hdata]).
    + injection H as <- <-. split; [destruct n; reflexivity | exact Hdata].
  - injection H as <- <-. split; [destruct n; reflexivity | exact Hdata].
Qed.

Lemma decode_fields_frame (flds : list (string * fmt)) :
  forall (n n' : node) (b b' : BytesIO),
    decode_fields flds n b = Ok (n', b') ->
    n' = set_items (items n') n /\ data b' = data b.
Proof.
  induction flds as [|f t IH]; intros n n' b b' H; cbn [decode_fields] in H.
  - injection H as <- <-. split; [destruct n; reflexivity | reflexivity].
  - inv_bind H. destruct a as [n1 b1].
    apply decode_field_frame in E. destruct E as [E1 E2].
    apply IH in H. destruct H as [H1 H2].
    split; [|congruence].
    rewrite H1, E1. destruct n; reflexivity.
Qed.

(** The header part of [decode]: the header is decoded by [hdec] from
    the offset of the node, and its ['length'] gives the length and the
    raw bytes of the node. *)
Lemma decode_header_Ok (name : string)
      (hdec : node -> BytesIO -> outcome (node * BytesIO))
      (n n' : node) (b b' : BytesIO) :
  decode_header name hdec n b = Ok (n', b') ->
  exists h0 h1 b1 L,
    n_header n = Some h0
    /\ hdec h0 b = Ok (h1, b1)
    /\ getitem "length" h1 = Ok (VInt L)
    /\ 0 <= n_offset n
    /\ b' = mkBuf (data b1) (tell b1)
    /\ let length := Z.max L 4 in
       let raw := slice (data b1) (n_offset n) (n_offset n + length) in
       let n1 := set_raw (Some raw) (set_length length (set_header (Some h1) n)) in
       n' = if n_debug n
            then set_header (Some (debug_header name raw (n_offset n) length h1)) n1
            else n1.
Proof.
  unfold decode_header. intros H. apply reraise_Ok in H.
  inv_bind H. rename a into h0.
  inv_bind H. destruct a as [h1 b1].
  inv_bind H. rename a into hl.
  inv_bind H. rename a into length.
  inv_bind H. apply seek_Ok in E3. destruct E3 as [Hoff ->].
  cbn [read data pos] in H.
  inv_bind H. apply seek_Ok in E3. destruct E3 as [Hsave ->].
  unfold get_header in E. destruct (n_header n) as [h|] eqn:Hh; [|discriminate].
  injection E as ->.
  unfold py_max4 in E2. destruct hl as [L| | | | |]; try discriminate.
  injection E2 as <-.
  exists h0, h1, b1, L.
  split; [reflexivity|]. split; [exact E0|]. split; [exact E1|].
  cbn [n_offset set_length set_header set_raw n_length n_debug] in *.
  split; [exact Hoff|].
  destruct (n_debug n) eqn:Hd; injection H as <- <-; split; reflexivity.
Qed.

(** ** Entries of a node decoded outside the debug mode *)

Lemma nla_iter_entries (tbl : list (string * child_decoder))
      (n n' : node) (b b' : BytesIO) :
  n_debug n = false -> two_element_entries n ->
  nla_iter tbl n b = Ok (n', b') ->
  n_debug n' = false /\ two_element_entries n'.
Proof.
  intros Hd Hn H. apply nla_iter_Ok in H.
  destruct H as (length & msg_type & _ & _ & _ & [-> | (k & v & l & Hl & ->)]).
  - split; assumption.
  - split; [exact Hd|].
    unfold two_element_entries, attrs_of in *. rewrite Hl in Hn.
    cbn [n_attrs set_attrs]. rewrite Hd. apply Forall_app. split; [exact Hn|].
    constructor; [reflexivity | constructor].
Qed.

Lemma decode_nlas_loop_entries (tbl : list (string * child_decoder)) :
  forall fuel (n n' : node) (b b' : BytesIO),
    n_debug n = false -> two_element_entries n ->
    decode_nlas_loop fuel tbl n b = Ok (n', b') ->
    n_debug n' = false /\ two_element_entries n'.
Proof.
  induction fuel as [|fuel IH]; intros n n' b b' Hd Hn H; cbn [decode_nlas_loop] in H;
    destruct (tell b <? n_offset n + n_length n); try discriminate;
    try (injection H as <- <-; split; assumption).
  inv_bind H. destruct a as [n1 b1].
  destruct (nla_iter_entries tbl n n1 b b1 Hd Hn E) as [Hd1 Hn1].
  exact (IH n1 n' b1 b' Hd1 Hn1 H).
Qed.

Lemma decode_base_entries (name : string) (flds : list (string * fmt))
      (hdec : option (node -> BytesIO -> outcome (node * BytesIO)))
      (tbl : list (string * child_decoder)) (n n' : node) (b b' : BytesIO) :
  n_debug n = false -> two_element_entries n ->
  decode_base name flds hdec tbl n b = Ok (n', b') ->
  n_debug n' = false /\ two_element_entries n'.
Proof.
  intros Hd Hn H. unfold decode_base in H.
  inv_bind H. destruct a as [n1 b1].
  assert (H1 : n_debug n1 = false /\ two_element_entries n1).
  { destruct hdec as [hd|].
    - apply decode_header_Ok in E.
      destruct E as (h0 & h1 & b0 & L & _ & _ & _ & _ & _ & E).
      cbn [n_debug set_offset] in E. rewrite Hd in E. subst n1.
      split; [exact Hd | exact Hn].
    - injection E as <- <-. split; [exact Hd | exact Hn]. }
  destruct H1 as [Hd1 Hn1].
  inv_bind H. destruct a as [n2 b2].
  apply reraise_Ok, decode_fields_frame in E0. destruct E0 as [E0 _].
  assert (H2 : n_debug n2 = false /\ two_element_entries n2).
  { rewrite E0. split; [exact Hd1 | exact Hn1]. }
  destruct H2 as [Hd2 Hn2].
  inv_bind H. destruct a as [n3 b3].
  assert (H3 : n_debug n3 = false /\ two_element_entries n3).
  { apply reraise_Ok in E1. inv_bind E1.
    destruct tbl as [|kd tbl].
    - injection E1 as <- <-. split; assumption.
    - unfold decode_nlas in E1.
      exact (decode_nlas_loop_entries _ _ _ _ _ _ Hd2 Hn2 E1). }
  destruct H3 as [Hd3 Hn3].
  split_bind H as attrs Eattrs. split_bind H as v Ev. split_bind H as n4 En4.
  injection H as <- <-.
  assert (Hkeep : n_debug n4 = n_debug n3
                  /\ (n_attrs n4 = n_attrs n3 \/ n_attrs n4 = None)).
  { destruct (is_notinit v).
    - unfold delitem in En4.
      destruct (dict_get "value" (items _)); [|discriminate].
      injection En4 as <-. destruct attrs; cbn; auto.
    - injection En4 as <-. destruct attrs; cbn; auto. }
  destruct Hkeep as [Hd4 Ha4]. split; [congruence|].
  unfold two_element_entries, attrs_of in *.
  destruct Ha4 as [-> | ->]; [exact Hn3 | constructor].
Qed.

Lemma decode_override_entries (o : hook) (n n' : node) :
  decode_override o n = Ok n' ->
  n_attrs n' = n_attrs n /\ n_debug n' = n_debug n.
Proof.
  destruct o; cbn [decode_override]; intros H.
  - injection H as <-. split; reflexivity.
  - injection H as <-. split; reflexivity.
  - inv_bind H. destruct a; try discriminate. injection H as <-. split; reflexivity.
  - inv_bind H. destruct a; try discriminate.
    destruct (utf8_valid bs); injection H as <-; split; reflexivity.
  - destruct (n_debug n) eqn:Hd.
    + injection H as <-. split; [reflexivity | exact Hd].
    + destruct (n_header n); [|discriminate]. injection H as <-.
      split; [reflexivity | exact Hd].
Qed.

Lemma decode_entries (c : schema) (n n' : node) (b b' : BytesIO) :
  n_debug n = false -> two_element_entries n ->
  decode c n b = Ok (n', b') ->
  n_debug n' = false /\ two_element_entries n'.
Proof.
  intros Hd Hn H. rewrite decode_eq in H.
  inv_bind H. destruct a as [n1 b1]. inv_bind H. injection H as <- <-.
  destruct (decode_base_entries _ _ _ _ _ _ _ _ Hd Hn E) as [Hd1 Hn1].
  apply decode_override_entries in E0. destruct E0 as [Ha Hdbg].
  split; [congruence|].
  unfold two_element_entries, attrs_of in *. rewrite Ha. exact Hn1.
Qed.

Lemma select_attrs_encoded (name : string) (l : list attr) :
  Forall (fun i => a_rest i = []) l ->
  matching name l <> [] ->
  select_attrs name "encoded" l = Raise IndexError.
Proof.
  induction 1 as [|i t Hi Ht IH]; cbn [matching filter select_attrs]; [congruence|].
  destruct (String.eqb (a_name i) name).
  - intros _. cbn. unfold entry_item. rewrite Hi. reflexivity.
  - exact IH.
Qed.

Lemma select_attrs_bad_fmt (name fmt : string) (l : list attr) :
  fmt_map fmt = Raise KeyError ->
  select_attrs name fmt l = Ok [] \/ select_attrs name fmt l = Raise KeyError.
Proof.
  intros Hfmt. induction l as [|i t IH]; cbn [select_attrs]; [left; reflexivity|].
  destruct (String.eqb (a_name i) name); [|exact IH].
  rewrite Hfmt. right. reflexivity.
Qed.

(** C10.  A node decoded outside the debug mode has two-element entries
    only.  So on such a node [get_attr(name, default, 'encoded')] and
    [get_encoded(name, default)] raise [IndexError] when an entry is
    named [name]; [get_attr] returns [default] when no entry is named
    [name], and when [fmt] is neither ['raw'] nor ['encoded']; with
    ['raw'] and an entry named [name] it returns the value of the first
    such entry. *)
Theorem get_encoded_after_decode
        (c : schema) (n0 n : node) (b b' : BytesIO) (name : string) (default : value) :
  n_debug n0 = false ->
  two_element_entries n0 ->
  decode c n0 b = Ok (n, b') ->
  two_element_entries n
  /\ (matching name (attrs_of n) <> [] ->
      get_attr n name default "encoded" = Raise IndexError
      /\ get_encoded n name default = Raise IndexError
      /\ exists i, hd_error (matching name (attrs_of n)) = Some i
                   /\ get_attr n name default "raw" = Ok (a_value i))
  /\ (forall fmt, matching name (attrs_of n) = [] ->
                  get_attr n name default fmt = Ok default)
  /\ (forall fmt, fmt <> "raw" -> fmt <> "encoded" ->
                  get_attr n name default fmt = Ok default).
Proof.
  intros Hd Hn0 Hdec.
  destruct (decode_entries c n0 n b b' Hd Hn0 Hdec) as [_ Hn].
  split; [exact Hn|].
  unfold two_element_entries in Hn.
  unfold get_encoded, get_attr, get_attrs, get_attrs_list, attrs_of in *.
  destruct (n_attrs n) as [l|]; cbn [bind].
  - split; [|split].
    + intros Hm. rewrite (select_attrs_encoded name l Hn Hm).
      split; [reflexivity|]. split; [reflexivity|].
      rewrite select_attrs_raw.
      destruct (matching name l) as [|i t]; [congruence|].
      exists i. split; reflexivity.
    + intros fmt Hm. rewrite (select_attrs_none name fmt l Hm). reflexivity.
    + intros fmt Hraw Henc.
      assert (Hfmt : fmt_map fmt = Raise KeyError).
      { unfold fmt_map.
        destruct (String.eqb_spec fmt "raw"); [contradiction|].
        destruct (String.eqb_spec fmt "encoded"); [contradiction|]. reflexivity. }
      destruct (select_attrs_bad_fmt name fmt l Hfmt) as [-> | ->]; reflexivity.
  - split; [intros Hm; exfalso; apply Hm; reflexivity|]. split; intros; reflexivity.
Qed.

Lemma get_encoded_after_decode_witness :
  get_encoded family_id_node "CTRL_ATTR_FAMILY_ID" VNone = Raise IndexError.
Proof.
  assert (Hdec : decode ctrlmsg (init_node ctrlmsg 0 false) (buf_of family_id_message)
                 = Ok (family_id_node, mkBuf family_id_message 28))
    by (vm_compute; reflexivity).
  assert (Hm : matching "CTRL_ATTR_FAMILY_ID" (attrs_of family_id_node) <> [])
    by (vm_compute; discriminate).
  exact (proj1 (proj2 (proj1 (proj2
           (get_encoded_after_decode ctrlmsg (init_node ctrlmsg 0 false)
              family_id_node (buf_of family_id_message)
              (mkBuf family_id_message 28) "CTRL_ATTR_FAMILY_ID" VNone
              eq_refl (Forall_nil _) Hdec)) Hm))).
Defined.

(** ** decode reads the buffer and does not write it *)

Lemma nla_iter_data (tbl : list (string * child_decoder))
      (n n' : node) (b b' : BytesIO) :
  reading_table tbl ->
  nla_iter tbl n b = Ok (n', b') -> data b' = data b.
Proof.
  intros Htbl H. unfold nla_iter in H.
  split_bind H as hdr0 Epeek. destruct hdr0 as [length msg_type].
  split_bind H as b0 Eseek. apply seek_Ok in Eseek. destruct Eseek as [_ ->].
  rewrite read_data in H. cbn [tell pos] in H.
  split_bind H as r Ebody. destruct r as [n1 b1].
  split_bind H as b2 Eseek. apply seek_Ok in Eseek. destruct Eseek as [_ ->].
  injection H as _ <-. cbn [data].
  destruct (nth_error tbl (Z.to_nat msg_type)) as [[msg_name msg_class]|] eqn:Hnth.
  - split_bind Ebody as r Echild. destruct r as [msg_value b3].
    split_bind Ebody as attrs Eattrs. injection Ebody as _ <-.
    apply nth_error_In in Hnth.
    pose proof (proj1 (Forall_forall _ _) Htbl _ Hnth) as Hdec. cbn [snd] in Hdec.
    destruct (msg_class _ _ _) as [[nla0 b4]| |] eqn:Hc; try discriminate.
    + injection Echild as _ <-. apply Hdec in Hc. exact Hc.
    + split_bind Echild as b5 Eseek. apply seek_Ok in Eseek.
      destruct Eseek as [_ ->]. cbn [read data] in Echild.
      injection Echild as _ <-. reflexivity.
  - injection Ebody as _ <-. reflexivity.
Qed.

Lemma decode_nlas_loop_frame (tbl : list (string * child_decoder)) :
  forall fuel (n n' : node) (b b' : BytesIO),
    decode_nlas_loop fuel tbl n b = Ok (n', b') ->
    n' = set_attrs (n_attrs n') n
    /\ (reading_table tbl -> data b' = data b).
Proof.
  induction fuel as [|fuel IH]; intros n n' b b' H; cbn [decode_nlas_loop] in H;
    destruct (tell b <? n_offset n + n_length n); try discriminate;
    try (injection H as <- <-; split; [destruct n; reflexivity | reflexivity]).
  split_bind H as r Eiter. destruct r as [n1 b1].
  apply IH in H. destruct H as [Hn Hdata].
  split.
  - apply nla_iter_Ok in Eiter.
    destruct Eiter as (length & msg_type & _ & _ & _ & [-> | (k & v & l & _ & ->)]);
      [exact Hn|].
    rewrite Hn. destruct n; reflexivity.
  - intros Htbl. rewrite (Hdata Htbl). exact (nla_iter_data tbl _ _ _ _ Htbl Eiter).
Qed.

(** After the header part, [decode_base] changes the items and the
    attributes of the node only. *)
Lemma decode_base_frame (name : string) (flds : list (string * fmt))
      (hdec : option (node -> BytesIO -> outcome (node * BytesIO)))
      (tbl : list (string * child_decoder)) (n n' : node) (b b' : BytesIO) :
  decode_base name flds hdec tbl n b = Ok (n', b') ->
  exists n1 b1,
    match hdec with
    | Some hd => decode_header name hd (set_offset (tell b) n) b
    | None => Ok (set_offset (tell b) n, b)
    end = Ok (n1, b1)
    /\ n' = set_attrs (n_attrs n') (set_items (items n') n1)
    /\ (reading_table tbl -> data b' = data b1).
Proof.
  intros H. unfold decode_base in H.
  split_bind H as r1 Ehdr. destruct r1 as [n1 b1].
  exists n1, b1. split; [exact Ehdr|].
  split_bind H as r2 Eflds. destruct r2 as [n2 b2].
  apply reraise_Ok, decode_fields_frame in Eflds. destruct Eflds as [En2 Hb2].
  split_bind H as r3 Enla. destruct r3 as [n3 b3].
  apply reraise_Ok in Enla.
  split_bind Enla as b4 Eseek. apply seek_Ok in Eseek. destruct Eseek as [_ ->].
  assert (H3 : n3 = set_attrs (n_attrs n3) n2
               /\ (reading_table tbl -> data b3 = data b2)).
  { destruct tbl as [|kd tbl].
    - injection Enla as <- <-. split; [destruct n2; reflexivity | reflexivity].
    - unfold decode_nlas in Enla. apply decode_nlas_loop_frame in Enla. exact Enla. }
  destruct H3 as [En3 Hb3].
  split_bind H as attrs Eattrs. split_bind H as v Ev. split_bind H as n4 En4.
  injection H as <- <-.
  split; [|intros Htbl; rewrite (Hb3 Htbl); exact Hb2].
  assert (E4 : n4 = set_attrs (n_attrs n4) (set_items (items n4) n3)).
  { destruct (is_notinit v).
    - unfold delitem in En4.
      destruct (dict_get "value" (items _)); [|discriminate].
      injection En4 as <-. destruct attrs, n3; reflexivity.
    - injection En4 as <-. destruct attrs, n3; reflexivity. }
  rewrite E4, En3, En2. destruct n1; reflexivity.
Qed.

Lemma decode_data : forall (c : schema) (n n' : node) (b b' : BytesIO),
    decode c n b = Ok (n', b') -> data b' = data b.
Proof.
  induction c as [name flds hdr nmap o IHh IHn] using schema_induction.
  intros n n' b b' H. rewrite decode_eq in H.
  split_bind H as r Ebase. destruct r as [n1 b1].
  split_bind H as n2 Eover. injection H as _ <-.
  apply decode_base_frame in Ebase.
  destruct Ebase as (n0 & b0 & Ehdr & _ & Hdata).
  cbn [cname fields override] in *.
  assert (Htbl : reading_table (t_nla_map (Schema name flds hdr nmap o))).
  { unfold reading_table, t_nla_map. cbn [nla_map].
    rewrite Forall_map. eapply Forall_impl; [|exact IHn].
    intros [k s] Hs debug length b2 n3 b3. cbn [snd] in *. apply Hs. }
  rewrite (Hdata Htbl).
  unfold header_decoder in Ehdr. cbn [header] in Ehdr.
  destruct hdr as [h|].
  - apply decode_header_Ok in Ehdr.
    destruct Ehdr as (h0 & h1 & b2 & L & _ & Hh & _ & _ & -> & _).
    cbn [data]. exact (IHh _ _ _ _ Hh).
  - injection Ehdr as _ <-. reflexivity.
Qed.

(** ** Length and raw bytes of a decoded node *)

Lemma slice_len (bs : bytes) (lo k : Z) :
  0 <= lo -> 0 <= k -> lo + k <= len bs -> len (slice bs lo (lo + k)) = k.
Proof.
  unfold slice, len. intros Hlo Hk Hlen.
  rewrite length_firstn, length_skipn. lia.
Qed.

Lemma dict_get_set (k : string) (v : value) (d : list (string * value)) :
  dict_get k (dict_set k v d) = Some v.
Proof.
  induction d as [|[k' v'] t IH]; cbn [dict_set dict_get].
  - rewrite String.eqb_refl. reflexivity.
  - destruct (String.eqb k k') eqn:E; cbn [dict_get]; rewrite ?String.eqb_refl, ?E;
      [reflexivity | exact IH].
Qed.

Lemma decode_override_frame (o : hook) (n n' : node) :
  decode_override o n = Ok n' ->
  n_length n' = n_length n /\ n_raw n' = n_raw n /\ n_offset n' = n_offset n
  /\ items n' = items n
  /\ (n_header n' = n_header n \/ n_header n' = None).
Proof.
  destruct o; cbn [decode_override]; intros H.
  - injection H as <-. repeat split; auto.
  - injection H as <-. repeat split; auto.
  - inv_bind H. destruct a; try discriminate. injection H as <-. repeat split; auto.
  - inv_bind H. destruct a; try discriminate.
    destruct (utf8_valid bs); injection H as <-; repeat split; auto.
  - destruct (n_debug n).
    + injection H as <-. repeat split; auto.
    + destruct (n_header n); [|discriminate]. injection H as <-. repeat split; auto.
Qed.

(** C6.  A node of a class with a header that decodes: the header was
    decoded at the offset of the node and gave a length [L]; the node
    records the length [max L 4] and, as its raw bytes, the slice of the
    buffer from its offset over that length; and on a valid input, a
    length of at least 4 with the buffer holding that many bytes from
    the offset, the ['length'] of the header that the node carries is
    the number of its raw bytes. *)
Theorem decode_length_and_raw (c hs : schema) (n0 n : node) (b b' : BytesIO) :
  header c = Some hs ->
  decode c n0 b = Ok (n, b') ->
  exists h0 h1 b1 L,
    n_header n0 = Some h0
    /\ decode hs h0 b = Ok (h1, b1)
    /\ getitem "length" h1 = Ok (VInt L)
    /\ n_offset n = tell b
    /\ n_length n = Z.max L 4
    /\ n_raw n = Some (slice (data b) (n_offset n) (n_offset n + n_length n))
    /\ (4 <= L -> n_offset n + L <= len (data b) ->
        forall hd, n_header n = Some hd ->
                   getitem "length" hd
                   = Ok (VInt (len (slice (data b) (n_offset n)
                                      (n_offset n + n_length n))))).
Proof.
  intros Hhs H. rewrite decode_eq in H.
  split_bind H as r Ebase. destruct r as [n2 b2].
  split_bind H as n3 Eover. injection H as <- _.
  apply decode_base_frame in Ebase.
  destruct Ebase as (n1 & b1 & Ehdr & En2 & _).
  unfold header_decoder in Ehdr. rewrite Hhs in Ehdr.
  apply decode_header_Ok in Ehdr.
  destruct Ehdr as (h0 & h1 & b0 & L & Hh0 & Hdec & Hlen & Hoff & _ & En1).
  cbn [n_header n_offset n_debug set_offset] in *.
  apply decode_override_frame in Eover.
  destruct Eover as (Hl3 & Hr3 & Ho3 & _ & Hh3).
  pose proof (decode_data _ _ _ _ _ Hdec) as Hdata. rewrite Hdata in En1.
  assert (F : n_offset n1 = tell b /\ n_length n1 = Z.max L 4
              /\ n_raw n1 = Some (slice (data b) (tell b) (tell b + Z.max L 4))
              /\ forall hd, n_header n1 = Some hd ->
                             getitem "length" hd = Ok (VInt L)
                             \/ getitem "length" hd = Ok (VInt (Z.max L 4))).
  { destruct (n_debug n0); subst n1; repeat split; cbn; intros hd Hhd;
      injection Hhd as <-; [right | left; exact Hlen].
    unfold debug_header, getitem, setitem. cbn [items set_items].
    rewrite dict_get_set. reflexivity. }
  destruct F as (Fo & Fl & Fr & Fh).
  assert (G : n_offset n3 = n_offset n1 /\ n_length n3 = n_length n1
              /\ n_raw n3 = n_raw n1
              /\ (n_header n3 = n_header n1 \/ n_header n3 = None)).
  { rewrite Ho3, Hl3, Hr3. rewrite En2. cbn.
    repeat split. destruct Hh3 as [-> | ->]; [left; rewrite En2; reflexivity | right; reflexivity]. }
  destruct G as (Go & Gl & Gr & Gh).
  exists h0, h1, b0, L.
  split; [exact Hh0|]. split; [exact Hdec|]. split; [exact Hlen|].
  split; [congruence|]. split; [congruence|].
  split; [rewrite Gr, Go, Gl, Fo, Fl; exact Fr|].
  intros HL Hfit hd Hhd.
  rewrite Go, Gl, Fo, Fl in *.
  replace (Z.max L 4) with L by lia.
  rewrite slice_len by lia.
  destruct Gh as [Gh | Gh]; rewrite Gh in Hhd; [|discriminate].
  destruct (Fh hd Hhd) as [Hd | Hd]; rewrite Hd; [reflexivity|].
  do 2 f_equal. lia.
Qed.

Lemma decode_length_and_raw_witness :
  getitem "length"
    (mkNode [("length", VInt 28); ("type", VInt 16); ("flags", VInt 0);
             ("sequence_number", VInt 0); ("pid", VInt 0)]
       None None NotInitialized None 0 0 false)
  = Ok (VInt (len (slice (data (buf_of family_id_message)) (n_offset family_id_node)
                     (n_offset family_id_node + n_length family_id_node)))).
Proof.
  assert (Hdec : decode ctrlmsg (init_node ctrlmsg 0 false) (buf_of family_id_message)
                 = Ok (family_id_node, mkBuf family_id_message 28))
    by (vm_compute; reflexivity).
  destruct (decode_length_and_raw ctrlmsg nlmsg_header (init_node ctrlmsg 0 false)
              family_id_node (buf_of family_id_message)
              (mkBuf family_id_message 28) eq_refl Hdec)
    as (h0 & h1 & b1 & L & Hh0 & Hh1 & HL & _ & _ & _ & Hvalid).
  injection Hh0 as <-. vm_compute in Hh1. injection Hh1 as <- <-.
  vm_compute in HL. injection HL as <-.
  apply Hvalid.
  - lia.
  - vm_compute. discriminate.
  - reflexivity.
Defined.

(** ** The fields 's' and 'z' *)

Lemma read_tell (k : Z) (b : BytesIO) :
  0 <= tell b -> 0 <= k ->
  tell (snd (read k b)) - tell b = Z.min k (Z.max 0 (len (data b) - tell b)).
Proof.
  intros Hp Hk. unfold read, tell, slice, len in *. cbn [snd pos].
  rewrite length_firstn, length_skipn. lia.
Qed.

(** C4 (as amended).  A field ['s'] or ['z'] that decodes asks the buffer
    for the length of the node less 4, whatever the header class of the
    node, and consumes that many bytes, or the bytes left in the buffer
    when they are fewer.  (The length of a node with a header is
    [max(header.length, 4)].) *)
Theorem sz_field_consumes (n n' : node) (b b' : BytesIO) (name : string) (f : fmt) :
  is_sz f = true ->
  0 <= tell b ->
  decode_field n b (name, f) = Ok (n', b') ->
  4 <= n_length n
  /\ tell b' - tell b
     = Z.min (n_length n - 4) (Z.max 0 (len (data b) - tell b)).
Proof.
  intros Hsz Hpos H. unfold decode_field in H. cbn [fst snd] in H.
  rewrite Hsz in H. split_bind H as size Esize.
  cbn [calcsize] in Esize.
  destruct (Z.ltb_spec (n_length n - 4) 0) as [Hneg|Hnn]; [discriminate|].
  injection Esize as <-.
  split; [lia|].
  rewrite <- (read_tell (n_length n - 4) b Hpos Hnn).
  destruct (read (n_length n - 4) b) as [raw b1]. cbn [snd].
  rewrite Z.eqb_refl in H.
  split_bind H as v Ev.
  destruct (is_z f).
  - split_bind H as l El. destruct (l =? 0); injection H as _ <-; reflexivity.
  - injection H as _ <-. reflexivity.
Qed.

Lemma sz_field_consumes_witness :
  4 <= n_length (init_node cdata 8 false)
  /\ tell (mkBuf [x08; x00; x00; x00; x61; x62; x63; x64] 8)
     - tell (mkBuf [x08; x00; x00; x00; x61; x62; x63; x64] 4)
     = Z.min (n_length (init_node cdata 8 false) - 4)
         (Z.max 0 (len (data (mkBuf [x08; x00; x00; x00; x61; x62; x63; x64] 4))
                   - tell (mkBuf [x08; x00; x00; x00; x61; x62; x63; x64] 4))).
Proof.
  apply (sz_field_consumes (init_node cdata 8 false)
           (setitem "value" (VBytes [x61; x62; x63; x64]) (init_node cdata 8 false))
           (mkBuf [x08; x00; x00; x00; x61; x62; x63; x64] 4)
           (mkBuf [x08; x00; x00; x00; x61; x62; x63; x64] 8)
           "value" Fs).
  - reflexivity.
  - vm_compute. discriminate.
  - vm_compute. reflexivity.
Defined.

(** Against C4 as stated: under the 16-byte netlink header, a message
    with [header.length = 20] has 4 bytes of payload, and its ['s']
    field consumes 16 bytes, the first 12 bytes of the next message
    among them. *)
Lemma s_field_under_nlmsg_header :
  exists n b,
    decode_bytes nlmsg_blob false two_blobs = Ok (n, b)
    /\ (exists h, n_header n = Some h /\ getitem "length" h = Ok (VInt 20))
    /\ get_size (fields nlmsg_header) = Ok 16
    /\ (exists v, getitem "value" n = Ok (VBytes v) /\ len v = 16)
    /\ tell b = 32.
Proof.
  eexists; eexists; split; [vm_compute; reflexivity|].
  split; [eexists; split; vm_compute; reflexivity|].
  split; [reflexivity|].
  split; [eexists; split; vm_compute; reflexivity|].
  reflexivity.
Qed.

(** C7.  A ['z'] field of a node of length 4, whose payload is empty,
    does not decode: [self[name][-1]] raises [IndexError] on the empty
    bytes, which [decode] reports as [NetlinkDataDecodeError]; so does
    the [asciiz] attribute [04 00 02 00], and the attribute loop of
    [ctrlmsg] records it as a hex dump, not as the empty string.  On
    encode a ['z'] field writes its value and one zero byte. *)
Theorem empty_z_field_raises :
  (forall (n : node) (b : BytesIO) (name : string),
      decode_field (set_length 4 n) b (name, Fz) = Raise IndexError)
  /\ decode_bytes asciiz false [x04; x00; x02; x00]
     = Raise (NetlinkDataDecodeError IndexError)
  /\ (exists n b,
        decode_bytes ctrlmsg false empty_name_message = Ok (n, b)
        /\ get_attr n "CTRL_ATTR_FAMILY_NAME" VNone "raw" = Ok (VStr "04:00:02:00"))
  /\ (forall (n : node) (name : string) (bs : bytes),
        encode_field (setitem name (VBytes bs) n) (name, Fz) = Ok (bs ++ [x00])).
Proof.
  split; [|split; [|split]].
  - intros n b name. unfold decode_field. cbn [fst snd is_sz is_z n_length set_length].
    change (4 - 4) with 0. cbn [calcsize Z.ltb Z.compare bind]. unfold read, slice.
    replace (pos b + 0 - pos b) with 0 by lia. reflexivity.
  - vm_compute. reflexivity.
  - eexists; eexists; split; vm_compute; reflexivity.
  - intros n name bs. unfold encode_field, getitem, setitem.
    cbn [fst snd items set_items]. rewrite dict_get_set. cbn [bind py_len].
    unfold pack. cbn [calcsize].
    destruct (Z.ltb_spec (len bs + 1) 0) as [Hneg|_]; [unfold len in Hneg; lia|].
    cbn [bind]. f_equal. unfold len, zeros.
    rewrite firstn_all2 by lia.
    replace (Z.to_nat (Z.of_nat (List.length bs) + 1 - Z.of_nat (List.length bs)))
      with 1%nat by lia.
    reflexivity.
Qed.

(** ** encode and the length of the header *)

Lemma encode_eq (c : schema) (n : node) (b : BytesIO) :
  encode c n b
  = (n <- encode_override (override c) n ;;
     encode_base (fields c) (header_encoder c) (r_nla_map c) n b).
Proof. destruct c; reflexivity. Qed.

Lemma dict_get_set_other (k k' : string) (v : value) (d : list (string * value)) :
  String.eqb k k' = false -> dict_get k (dict_set k' v d) = dict_get k d.
Proof.
  intros Hk. induction d as [|[k0 v0] t IH]; cbn [dict_set dict_get].
  - rewrite Hk. reflexivity.
  - destruct (String.eqb k' k0) eqn:E0; cbn [dict_get].
    + apply String.eqb_eq in E0. subst k0. rewrite Hk. reflexivity.
    + rewrite IH. reflexivity.
Qed.

Lemma encode_override_length (o : hook) (n n' : node) :
  encode_override o n = Ok n' -> getitem "length" n' = getitem "length" n.
Proof.
  destruct o; cbn [encode_override]; intros H;
    try (injection H as <-; reflexivity).
  split_bind H as v Ev. destruct v; try (injection H as <-; reflexivity).
  injection H as <-. unfold getitem, setitem. cbn [items set_items].
  rewrite dict_get_set_other by reflexivity. reflexivity.
Qed.

Lemma update_length_Ok (henc : node -> BytesIO -> outcome (node * BytesIO))
      (start diff : Z) (n n' : node) (b b' : BytesIO) :
  update_length henc start diff n b = Ok (n', b') ->
  exists h h' b1,
    n_header n = Some h
    /\ henc (setitem "length" (VInt (tell b - start - diff)) h) (mkBuf (data b) start)
       = Ok (h', b1)
    /\ n' = set_header (Some h') n
    /\ b' = mkBuf (data b1) (tell b).
Proof.
  unfold update_length. intros H.
  split_bind H as h Eh. split_bind H as b0 Eseek.
  apply seek_Ok in Eseek. destruct Eseek as [_ ->].
  split_bind H as r Eenc. destruct r as [h' b1].
  split_bind H as b2 Eseek. apply seek_Ok in Eseek. destruct Eseek as [_ ->].
  injection H as <- <-.
  unfold get_header in Eh. destruct (n_header n) as [h0|]; [|discriminate].
  injection Eh as ->. exists h, h', b1. repeat split. exact Eenc.
Qed.

Lemma encode_nlas_frame (tbl : list (string * child_encoder))
      (n n' : node) (b b' : BytesIO) :
  encode_nlas tbl n b = Ok (n', b') -> n' = set_attrs (n_attrs n') n.
Proof.
  unfold encode_nlas. intros H. split_bind H as attrs Eattrs.
  split_bind H as r Eloop. destruct r as [attrs' b1].
  injection H as <- <-. destruct n; reflexivity.
Qed.

(** [encode_base] changes the header and the attributes of the node
    only. *)
Lemma encode_base_items (flds : list (string * fmt))
      (hdr : option (list (string * fmt)
                     * (node -> BytesIO -> outcome (node * BytesIO))))
      (tbl : list (string * child_encoder)) (n n' : node) (b b' : BytesIO) :
  encode_base flds hdr tbl n b = Ok (n', b') -> items n' = items n.
Proof.
  unfold encode_base. intros H.
  split_bind H as b1 Eres. split_bind H as r Epay. destruct r as [diff b2].
  split_bind H as r Enla. destruct r as [[diff' n2] b3].
  assert (E2 : items n2 = items n).
  { destruct tbl as [|kd tbl].
    - injection Enla as _ <- _. reflexivity.
    - split_bind Enla as r Ech. destruct r as [n3 b4]. injection Enla as _ <- _.
      apply encode_nlas_frame in Ech. rewrite Ech. reflexivity. }
  destruct hdr as [[hflds henc]|].
  - apply update_length_Ok in H. destruct H as (h & h' & b4 & _ & _ & -> & _).
    exact E2.
  - injection H as <- _. exact E2.
Qed.

Lemma encode_keeps_length (c : schema) (n n' : node) (b b' : BytesIO) :
  encode c n b = Ok (n', b') -> getitem "length" n' = getitem "length" n.
Proof.
  rewrite encode_eq. intros H. split_bind H as n1 Eover.
  apply encode_base_items in H. apply encode_override_length in Eover.
  rewrite <- Eover. unfold getitem. rewrite H. reflexivity.
Qed.

Lemma r_nla_map_nil (c : schema) : r_nla_map c = [] <-> nla_map c = [].
Proof.
  unfold r_nla_map. destruct (nla_map c); cbn; split; congruence.
Qed.

(** C3 (as amended).  After [encode] of a node of a class with a header,
    the ['length'] of the header is [tell - start - diff], where [start]
    and [tell] are the cursor before and after [encode], and [diff] is
    the padding written after the field block when the class has no
    [nla_map], and 0 when it has one: the length then counts that
    padding. *)
Theorem encode_header_length (c hs : schema) (n n1 n' : node) (b b' : BytesIO) :
  header c = Some hs ->
  encode_override (override c) n = Ok n1 ->
  encode c n b = Ok (n', b') ->
  exists hd,
    n_header n' = Some hd
    /\ getitem "length" hd = Ok (VInt (tell b' - tell b - encode_diff c n1)).
Proof.
  intros Hhs Hover H. rewrite encode_eq, Hover in H. cbn [bind] in H.
  unfold encode_base, header_encoder in H. rewrite Hhs in H.
  split_bind H as b1 Eres. split_bind H as r Epay. destruct r as [diff b2].
  split_bind H as r Enla. destruct r as [[diff' n2] b3].
  apply update_length_Ok in H.
  destruct H as (h & h' & b4 & _ & Henc & -> & ->).
  exists h'. split; [reflexivity|].
  rewrite (encode_keeps_length _ _ _ _ _ Henc).
  unfold getitem, setitem. cbn [items set_items tell pos].
  rewrite dict_get_set. do 3 f_equal.
  unfold encode_diff.
  destruct (r_nla_map c) as [|kd tbl] eqn:Htbl.
  - apply r_nla_map_nil in Htbl. rewrite Htbl.
    injection Enla as <- _ _.
    destruct (is_none (getvalue n1)); cbn [negb] in Epay.
    + injection Epay as <- _. reflexivity.
    + split_bind Epay as payload Efl. injection Epay as <- _.
      rewrite Efl. reflexivity.
  - destruct (nla_map c) eqn:Hmap.
    + unfold r_nla_map in Htbl. rewrite Hmap in Htbl. discriminate.
    + split_bind Enla as r Ech. destruct r as [n3 b5]. injection Enla as <- _ _.
      reflexivity.
Qed.

Lemma encode_header_length_witness :
  exists hd,
    n_header (set_header
                (Some (setitem "type" (VInt 0)
                         (setitem "length" (VInt 16) (init_node nla_header 0 false))))
                (set_attrs
                   (Some [mkAttr "FAMILY_ATTR_ID" (VInt 1)
                            [VNode (set_header
                                      (Some (setitem "type" (VInt 0)
                                               (setitem "length" (VInt 5)
                                                  (init_node nla_header 0 false))))
                                      (setvalue (VInt 1) (init_node uint8 0 false)))]])
                   family_node))
    = Some hd
    /\ getitem "length" hd
       = Ok (VInt (tell (mkBuf [x10; x00; x00; x00; x02; x00; x00; x00;
                                x05; x00; x00; x00; x01; x00; x00; x00] 16)
                   - tell new_buf - encode_diff family_msg family_node)).
Proof.
  apply (encode_header_length family_msg nla_header family_node family_node _
           new_buf _ eq_refl eq_refl).
  vm_compute. reflexivity.
Defined.

(** Against C3 as stated: [family_msg] has an attribute chain and a
    field block of one byte, after which [encode] writes three bytes of
    padding; the header length it writes is 16, the distance from
    [start] to the cursor, not 16 - 3. *)
Lemma header_length_counts_field_padding :
  exists n b payload hd,
    encode family_msg family_node new_buf = Ok (n, b)
    /\ tell b = 16
    /\ encode_fields (fields family_msg) family_node = Ok payload
    /\ field_pad payload = 3
    /\ n_header n = Some hd
    /\ getitem "length" hd = Ok (VInt 16)
    /\ data b = [x10; x00; x00; x00; x02; x00; x00; x00;
                 x05; x00; x00; x00; x01; x00; x00; x00].
Proof.
  eexists; eexists; eexists; eexists.
  split; [vm_compute; reflexivity|].
  split; [reflexivity|].
  split; [vm_compute; reflexivity|].
  split; [vm_compute; reflexivity|].
  split; [reflexivity|].
  split; vm_compute; reflexivity.
Qed.

(** ** Little-endian integers *)

Lemma byte_to_Z_bound (b : byte) : 0 <= byte_to_Z b < 256.
Proof. unfold byte_to_Z. pose proof (Byte.to_N_bounded b). lia. Qed.

Lemma byte_of_to_Z (b : byte) : byte_of_Z (byte_to_Z b) = b.
Proof.
  unfold byte_of_Z. pose proof (byte_to_Z_bound b) as Hb.
  rewrite Z.mod_small by exact Hb. unfold byte_to_Z.
  rewrite N2Z.id, Byte.of_to_N. reflexivity.
Qed.

Lemma byte_to_of_Z (z : Z) : byte_to_Z (byte_of_Z z) = z mod 256.
Proof.
  unfold byte_of_Z, byte_to_Z.
  pose proof (Z.mod_pos_bound z 256 ltac:(lia)) as Hz.
  destruct (Byte.of_N (Z.to_N (z mod 256))) as [b|] eqn:E.
  - apply Byte.to_of_N in E. rewrite E. lia.
  - apply Byte.of_N_None_iff in E. lia.
Qed.

Lemma le_decode_bound (bs : bytes) : 0 <= le_decode bs < 2 ^ (8 * len bs).
Proof.
  unfold len. induction bs as [|b t IH]; cbn [le_decode List.length].
  - cbn. lia.
  - pose proof (byte_to_Z_bound b) as Hb.
    replace (8 * Z.of_nat (S (List.length t))) with (8 + 8 * Z.of_nat (List.length t))
      by lia.
    rewrite Z.pow_add_r by lia. change (2 ^ 8) with 256. lia.
Qed.

Lemma le_encode_decode (bs : bytes) : le_encode (List.length bs) (le_decode bs) = bs.
Proof.
  induction bs as [|b t IH]; cbn [le_decode le_encode List.length]; [reflexivity|].
  pose proof (byte_to_Z_bound b) as Hb. f_equal.
  - unfold byte_of_Z.
    replace ((byte_to_Z b + 256 * le_decode t) mod 256) with (byte_to_Z b)
      by (Z.div_mod_to_equations; lia).
    unfold byte_to_Z. rewrite N2Z.id, Byte.of_to_N. reflexivity.
  - replace ((byte_to_Z b + 256 * le_decode t) / 256) with (le_decode t)
      by (Z.div_mod_to_equations; lia).
    exact IH.
Qed.

Lemma le_decode_encode (n : nat) (z : Z) :
  0 <= z < 2 ^ (8 * Z.of_nat n) -> le_decode (le_encode n z) = z.
Proof.
  revert z. induction n as [|n IH]; intros z Hz; cbn [le_encode le_decode].
  - cbn in Hz. lia.
  - rewrite byte_to_of_Z.
    replace (8 * Z.of_nat (S n)) with (8 + 8 * Z.of_nat n) in Hz by lia.
    rewrite Z.pow_add_r in Hz by lia. change (2 ^ 8) with 256 in Hz.
    rewrite IH by (Z.div_mod_to_equations; nia).
    Z.div_mod_to_equations. lia.
Qed.

Lemma le_encode_length (n : nat) (z : Z) : List.length (le_encode n z) = n.
Proof. revert z. induction n as [|n IH]; intros z; cbn; [|rewrite IH]; reflexivity. Qed.

(** ** Reading and writing a buffer *)

Lemma read_chunk (d : bytes) (p k : Z) (chunk rest : bytes) :
  0 <= p ->
  skipn (Z.to_nat p) d = chunk ++ rest ->
  k = len chunk ->
  read k (mkBuf d p) = (chunk, mkBuf d (p + k)).
Proof.
  intros Hp Hview ->. unfold read, slice. cbn [data pos].
  replace (Z.to_nat (p + len chunk - p)) with (List.length chunk)
    by (unfold len; lia).
  rewrite Hview, firstn_app, Nat.sub_diag, firstn_all. cbn [firstn].
  rewrite app_nil_r. reflexivity.
Qed.

Lemma skip_chunk (d : bytes) (p : Z) (chunk rest : bytes) :
  0 <= p ->
  skipn (Z.to_nat p) d = chunk ++ rest ->
  skipn (Z.to_nat (p + len chunk)) d = rest.
Proof.
  intros Hp Hview.
  replace (Z.to_nat (p + len chunk)) with (List.length chunk + Z.to_nat p)%nat
    by (unfold len; lia).
  rewrite <- skipn_skipn, Hview, skipn_app, Nat.sub_diag, skipn_all.
  reflexivity.
Qed.

Lemma len_app (a b : bytes) : len (a ++ b) = len a + len b.
Proof. unfold len. rewrite length_app. lia. Qed.

Lemma len_nonneg (a : bytes) : 0 <= len a.
Proof. unfold len. lia. Qed.

Lemma len_zeros (k : Z) : 0 <= k -> len (zeros k) = k.
Proof. intros Hk. unfold len, zeros. rewrite repeat_length. lia. Qed.

Lemma write_beyond (d bs : bytes) (g : Z) :
  0 <= g ->
  write bs (mkBuf d (len d + g)) = mkBuf (d ++ zeros g ++ bs) (len d + g + len bs).
Proof.
  intros Hg. unfold write. cbn [data pos]. f_equal.
  replace (len d + g - len d) with g by lia.
  assert (Hl : Z.to_nat (len d + g) = List.length (d ++ zeros g)).
  { rewrite length_app. unfold len, zeros. rewrite repeat_length. lia. }
  rewrite Hl, firstn_all.
  rewrite skipn_all2; [rewrite app_nil_r, <- app_assoc; reflexivity|].
  rewrite <- Hl. unfold len. lia.
Qed.

Lemma write_at_end (d bs : bytes) :
  write bs (mkBuf d (len d)) = mkBuf (d ++ bs) (len d + len bs).
Proof.
  pose proof (write_beyond d bs 0 ltac:(lia)) as H.
  rewrite Z.add_0_r in H. exact H.
Qed.

Lemma write_over (pre old post bs : bytes) :
  len old = len bs ->
  write bs (mkBuf (pre ++ old ++ post) (len pre))
  = mkBuf (pre ++ bs ++ post) (len pre + len bs).
Proof.
  intros Hlen. unfold write. cbn [data pos]. f_equal.
  assert (Hz : zeros (len pre - len (pre ++ old ++ post)) = []).
  { unfold zeros. rewrite !len_app.
    pose proof (len_nonneg old). pose proof (len_nonneg post).
    replace (Z.to_nat _) with 0%nat by lia. reflexivity. }
  rewrite Hz, app_nil_r.
  replace (Z.to_nat (len pre)) with (List.length pre) by (unfold len; lia).
  rewrite firstn_app, Nat.sub_diag, firstn_all. cbn [firstn]. rewrite app_nil_r.
  f_equal. f_equal.
  replace (Z.to_nat (len pre + len bs)) with (List.length old + List.length pre)%nat
    by (unfold len in *; lia).
  rewrite <- skipn_skipn, skipn_app, Nat.sub_diag, skipn_all. cbn [skipn app].
  rewrite skipn_app, Nat.sub_diag, skipn_all. reflexivity.
Qed.

(** ** Decoding a well-formed message *)

Lemma decode_field_int (n : node) (d : bytes) (p : Z) (name : string) (f : fmt)
      (chunk rest : bytes) :
  is_int f = true ->
  calcsize f = Ok (len chunk) ->
  0 <= p ->
  skipn (Z.to_nat p) d = chunk ++ rest ->
  decode_field n (mkBuf d p) (name, f)
  = Ok (setitem name (VInt (le_decode chunk)) n, mkBuf d (p + len chunk)).
Proof.
  intros Hint Hsize Hp Hview. unfold decode_field. cbn [fst snd].
  assert (Hsz : is_sz f = false) by (destruct f; cbn in *; congruence).
  assert (Hz : is_z f = false) by (destruct f; cbn in *; congruence).
  rewrite Hsz, Hz, Hsize. cbn [bind].
  rewrite (read_chunk d p (len chunk) chunk rest Hp Hview eq_refl).
  rewrite Z.eqb_refl. unfold unpack. rewrite Hsize. cbn [bind].
  rewrite Z.eqb_refl. cbn [negb].
  destruct f; cbn in Hint; try discriminate; reflexivity.
Qed.

Lemma decode_fields_ints (flds : list (string * fmt)) (chunks : list bytes) :
  Forall2 (fun f ch => is_int (snd f) = true /\ calcsize (snd f) = Ok (len ch))
          flds chunks ->
  forall (n : node) (d : bytes) (p : Z) (rest : bytes),
    0 <= p ->
    skipn (Z.to_nat p) d = List.concat chunks ++ rest ->
    decode_fields flds n (mkBuf d p)
    = Ok (store_ints flds chunks n, mkBuf d (p + len (List.concat chunks))).
Proof.
  induction 1 as [|[name f] ch fl cl [Hint Hsize] _ IH]; intros n d p rest Hp Hview;
    cbn [decode_fields store_ints List.concat].
  - cbn. rewrite Z.add_0_r. reflexivity.
  - cbn [List.concat] in Hview. rewrite <- app_assoc in Hview. cbn [snd fst] in *.
    rewrite (decode_field_int n d p name f ch _ Hint Hsize Hp Hview). cbn [bind].
    pose proof (len_nonneg ch) as Hch.
    rewrite (IH _ d (p + len ch) rest ltac:(lia) (skip_chunk d p ch _ Hp Hview)).
    rewrite len_app, Z.add_assoc. reflexivity.
Qed.

Arguments NLMSG_ALIGN : simpl never.

Lemma NLMSG_ALIGN_nonneg (l : Z) : 0 <= l -> 0 <= NLMSG_ALIGN l.
Proof. intros H. pose proof (NLMSG_ALIGN_bounds l). lia. Qed.

(** The header part of [decode], when the header decodes to a length of
    at least 4, outside the debug mode. *)
Lemma decode_header_run (name : string)
      (hdec : node -> BytesIO -> outcome (node * BytesIO))
      (n h0 h1 : node) (d : bytes) (p p' L : Z) :
  n_header n = Some h0 ->
  hdec h0 (mkBuf d p) = Ok (h1, mkBuf d p') ->
  getitem "length" h1 = Ok (VInt L) ->
  4 <= L -> 0 <= n_offset n -> 0 <= p' -> n_debug n = false ->
  decode_header name hdec n (mkBuf d p)
  = Ok (set_raw (Some (slice d (n_offset n) (n_offset n + L)))
          (set_length L (set_header (Some h1) n)),
        mkBuf d p').
Proof.
  intros Hh Hdec Hlen HL Hoff Hp' Hdbg. unfold decode_header, get_header.
  rewrite Hh. cbn [bind]. rewrite Hdec. cbn [bind]. rewrite Hlen. cbn [bind py_max4].
  rewrite Z.max_l by lia.
  cbn [n_offset n_length n_debug set_length set_header set_raw tell pos].
  rewrite seek_nonneg by exact Hoff. cbn [bind read data pos].
  rewrite seek_nonneg by exact Hp'. cbn [bind]. rewrite Hdbg. reflexivity.
Qed.

(** [decode_base] of a class without [nla_map], from what its header
    part and its field block give. *)
Lemma decode_base_leaf (name : string) (flds : list (string * fmt))
      (hdec : option (node -> BytesIO -> outcome (node * BytesIO)))
      (n n1 n2 : node) (d : bytes) (p p1 p2 : Z) :
  match hdec with
  | Some hd => decode_header name hd (set_offset p n) (mkBuf d p)
  | None => Ok (set_offset p n, mkBuf d p)
  end = Ok (n1, mkBuf d p1) ->
  decode_fields flds n1 (mkBuf d p1) = Ok (n2, mkBuf d p2) ->
  0 <= p2 ->
  n_attrs n2 = Some [] ->
  decode_base name flds hdec [] n (mkBuf d p)
  = (v <- getitem "value" (set_attrs None n2) ;;
     n3 <- (if is_notinit v then delitem "value" (set_attrs None n2)
            else Ok (set_attrs None n2)) ;;
     Ok (n3, mkBuf d (NLMSG_ALIGN p2))).
Proof.
  intros Hhdr Hflds Hp2 Hattrs. unfold decode_base. cbn [tell pos].
  rewrite Hhdr. cbn [bind]. rewrite Hflds. cbn [bind reraise tell pos].
  rewrite seek_nonneg by (apply NLMSG_ALIGN_nonneg; exact Hp2).
  cbn [bind reraise data]. unfold get_attrs_list. rewrite Hattrs. cbn [bind].
  reflexivity.
Qed.

Lemma decode_nla_header (d : bytes) (p : Z) (lenb tyb rest : bytes) :
  len lenb = 2 -> len tyb = 2 -> 0 <= p -> p mod 4 = 0 ->
  skipn (Z.to_nat p) d = lenb ++ tyb ++ rest ->
  decode nla_header (init_node nla_header 0 false) (mkBuf d p)
  = Ok (mkNode [("length", VInt (le_decode lenb)); ("type", VInt (le_decode tyb))]
          None None NotInitialized None 0 p false,
        mkBuf d (p + 4)).
Proof.
  intros Hl Ht Hp Hal Hview.
  rewrite decode_eq.
  rewrite (decode_base_leaf "nla_header" _ None _ _
             (store_ints [("length", FH); ("type", FH)] [lenb; tyb]
                (set_offset p (init_node nla_header 0 false)))
             d p p (p + 4) eq_refl).
  - rewrite (NLMSG_ALIGN_aligned (p + 4)) by (Z.div_mod_to_equations; lia).
    reflexivity.
  - cbn [fields nla_header].
    rewrite (decode_fields_ints _ [lenb; tyb]) with (rest := rest).
    + cbn [List.concat]. rewrite app_nil_r, len_app, Hl, Ht. reflexivity.
    + repeat constructor; cbn; congruence.
    + exact Hp.
    + cbn [List.concat]. rewrite app_nil_r, <- app_assoc. exact Hview.
  - lia.
  - reflexivity.
Qed.

(** The header part of the decode of an attribute. *)
Lemma decode_attr_header (name : string) (n : node) (d : bytes) (p L : Z)
      (tyb rest : bytes) :
  n_header n = Some (init_node nla_header 0 false) ->
  n_offset n = p -> n_debug n = false ->
  4 <= L < 65536 -> len tyb = 2 -> 0 <= p -> p mod 4 = 0 ->
  skipn (Z.to_nat p) d = le_encode 2 L ++ tyb ++ rest ->
  decode_header name (decode nla_header) n (mkBuf d p)
  = Ok (set_raw (Some (slice d p (p + L)))
          (set_length L
             (set_header
                (Some (mkNode [("length", VInt L); ("type", VInt (le_decode tyb))]
                         None None NotInitialized None 0 p false)) n)),
        mkBuf d (p + 4)).
Proof.
  intros Hh Hoff Hdbg HL Ht Hp Hal Hview.
  rewrite (decode_header_run name (decode nla_header) n _
             (mkNode [("length", VInt L); ("type", VInt (le_decode tyb))]
                None None NotInitialized None 0 p false)
             d p (p + 4) L Hh).
  - rewrite Hoff. reflexivity.
  - rewrite (decode_nla_header d p (le_encode 2 L) tyb rest); try assumption.
    + rewrite le_decode_encode by (change (2 ^ (8 * Z.of_nat 2)) with 65536; lia).
      reflexivity.
    + unfold len. rewrite le_encode_length. reflexivity.
  - reflexivity.
  - lia.
  - lia.
  - lia.
  - exact Hdbg.
Qed.

Lemma calcsize_FNs (chunk : bytes) : calcsize (FNs (len chunk)) = Ok (len chunk).
Proof.
  cbn [calcsize]. pose proof (len_nonneg chunk).
  destruct (Z.ltb_spec (len chunk) 0); [lia | reflexivity].
Qed.

Lemma decode_field_s (n : node) (d : bytes) (p : Z) (name : string)
      (chunk rest : bytes) :
  n_length n = 4 + len chunk ->
  0 <= p ->
  skipn (Z.to_nat p) d = chunk ++ rest ->
  decode_field n (mkBuf d p) (name, Fs)
  = Ok (setitem name (VBytes chunk) n, mkBuf d (p + len chunk)).
Proof.
  intros Hlen Hp Hview. unfold decode_field. cbn [fst snd is_sz is_z].
  rewrite Hlen. replace (4 + len chunk - 4) with (len chunk) by lia.
  rewrite calcsize_FNs. cbn [bind].
  rewrite (read_chunk d p (len chunk) chunk rest Hp Hview eq_refl).
  rewrite Z.eqb_refl. unfold unpack. rewrite calcsize_FNs. cbn [bind].
  rewrite Z.eqb_refl. reflexivity.
Qed.

Lemma decode_field_z (n : node) (d : bytes) (p : Z) (name : string)
      (q rest : bytes) :
  n_length n = 4 + len (q ++ [x00]) ->
  0 <= p ->
  skipn (Z.to_nat p) d = (q ++ [x00]) ++ rest ->
  decode_field n (mkBuf d p) (name, Fz)
  = Ok (setitem name (VBytes q) n, mkBuf d (p + len (q ++ [x00]))).
Proof.
  intros Hlen Hp Hview. unfold decode_field. cbn [fst snd is_sz is_z].
  rewrite Hlen. replace (4 + len (q ++ [x00]) - 4) with (len (q ++ [x00])) by lia.
  rewrite calcsize_FNs. cbn [bind].
  rewrite (read_chunk d p _ (q ++ [x00]) rest Hp Hview eq_refl).
  rewrite Z.eqb_refl. unfold unpack. rewrite calcsize_FNs. cbn [bind].
  rewrite Z.eqb_refl. cbn [negb bind last_item].
  rewrite rev_app_distr. cbn [rev app bind]. 
  change (byte_to_Z x00 =? 0) with true. cbn [drop_last].
  rewrite removelast_last. reflexivity.
Qed.

Arguments utf8_valid : simpl never.

(** Runs [decode] of [uint8], [uint16] or [uint32] on its attribute. *)
Ltac decode_uint Hhdr Hview f p1 rest :=
  eexists; eexists;
  (split;
   [ rewrite decode_eq;
     cbn [cname fields override header_decoder header t_nla_map nla_map
          uint8 uint16 uint32 map];
     (erewrite decode_base_leaf;
      [ | apply Hhdr; reflexivity
        | apply (decode_fields_ints [("value", f)] [p1])
            with (rest := zeros (field_pad p1) ++ rest);
          [ repeat constructor; cbn; congruence | lia
          | cbn [List.concat]; rewrite app_nil_r; exact Hview ]
        | cbn [List.concat]; rewrite app_nil_r; lia
        | reflexivity ]);
     cbn; reflexivity
   | reflexivity ]).

Lemma decode_faithful (s : schema) (payload : bytes) (v : value) :
  faithful s payload v ->
  forall (d : bytes) (p k : Z) (rest : bytes),
    0 <= p -> p mod 4 = 0 -> 4 + len payload < 65536 ->
    skipn (Z.to_nat p) d = wire_attr k payload ++ rest ->
    exists nla b',
      decode s (init_node s (4 + len payload) false) (mkBuf d p) = Ok (nla, b')
      /\ getvalue nla = v.
Proof.
  intros Hf d p k rest Hp Hal HL Hview.
  pose proof (len_nonneg payload) as Hpl.
  unfold wire_attr in Hview. rewrite <- !app_assoc in Hview.
  assert (Hview' : skipn (Z.to_nat (p + 4)) d
                   = payload ++ zeros (field_pad payload) ++ rest).
  { pose proof (skip_chunk d p (le_encode 2 (4 + len payload) ++ le_encode 2 k)
                  (payload ++ zeros (field_pad payload) ++ rest) Hp) as Hs.
    rewrite <- app_assoc in Hs. specialize (Hs Hview).
    rewrite len_app in Hs. unfold len at 1 2 in Hs.
    rewrite !le_encode_length in Hs. exact Hs. }
  assert (Hhdr : forall name n,
             n_header n = Some (init_node nla_header 0 false) ->
             n_offset n = p -> n_debug n = false ->
             decode_header name (decode nla_header) n (mkBuf d p)
             = Ok (set_raw (Some (slice d p (p + (4 + len payload))))
                     (set_length (4 + len payload)
                        (set_header
                           (Some (mkNode [("length", VInt (4 + len payload));
                                          ("type", VInt (le_decode (le_encode 2 k)))]
                                    None None NotInitialized None 0 p false)) n)),
                   mkBuf d (p + 4))).
  { intros name n Hh Ho Hd.
    apply (decode_attr_header name n d p (4 + len payload) (le_encode 2 k)
             (payload ++ zeros (field_pad payload) ++ rest)); try assumption; try lia.
    unfold len. rewrite le_encode_length. reflexivity. }
  destruct Hf as [ | p1 Hlen | p1 Hlen | p1 Hlen | p1 | q].
  - (* none *)
    eexists. eexists. split.
    + rewrite decode_eq.
      cbn [cname fields override header_decoder header t_nla_map nla_map none map].
      erewrite decode_base_leaf.
      2:{ apply Hhdr; reflexivity. }
      2:{ cbn [decode_fields]. reflexivity. }
      2:{ lia. }
      2:{ reflexivity. }
      cbn. reflexivity.
    + reflexivity.
  - (* uint8 *) decode_uint Hhdr Hview' FB p1 rest.
  - (* uint16 *) decode_uint Hhdr Hview' FH p1 rest.
  - (* uint32 *) decode_uint Hhdr Hview' FI p1 rest.
  - (* cdata *)
    eexists. eexists. split.
    + rewrite decode_eq.
      cbn [cname fields override header_decoder header t_nla_map nla_map cdata map].
      erewrite decode_base_leaf.
      2:{ apply Hhdr; reflexivity. }
      2:{ cbn [decode_fields].
          rewrite (decode_field_s _ d (p + 4) "value" p1 (zeros (field_pad p1) ++ rest));
            [reflexivity | reflexivity | lia | exact Hview']. }
      2:{ lia. }
      2:{ reflexivity. }
      cbn. reflexivity.
    + reflexivity.
  - (* asciiz *)
    destruct (utf8_valid q) eqn:Hutf; eexists; eexists;
      (split;
       [ rewrite decode_eq;
         cbn [cname fields override header_decoder header t_nla_map nla_map asciiz map];
         (erewrite decode_base_leaf;
          [ | apply Hhdr; reflexivity
            | cbn [decode_fields];
              rewrite (decode_field_z _ d (p + 4) "value" q
                         (zeros (field_pad (q ++ [x00])) ++ rest));
              [reflexivity | reflexivity | lia | exact Hview']
            | lia
            | reflexivity ]);
         cbn -[Z.add]; rewrite Hutf; reflexivity
       | reflexivity ]).
Qed.


Lemma len_le_encode (n : nat) (z : Z) : len (le_encode n z) = Z.of_nat n.
Proof. unfold len. rewrite le_encode_length. reflexivity. Qed.

Lemma len_wire_attr (k : Z) (payload : bytes) :
  len (wire_attr k payload) = NLMSG_ALIGN (4 + len payload).
Proof.
  unfold wire_attr, field_pad. pose proof (len_nonneg payload) as Hp.
  pose proof (NLMSG_ALIGN_bounds (len payload)) as Hb.
  rewrite !len_app, len_zeros, !len_le_encode by lia.
  rewrite (NLMSG_ALIGN_add 4 (len payload)) by reflexivity. lia.
Qed.

Lemma peek_header_wire (d : bytes) (p L k : Z) (rest : bytes) :
  0 <= p -> 0 <= L < 65536 -> 0 <= k < 65536 ->
  skipn (Z.to_nat p) d = le_encode 2 L ++ le_encode 2 k ++ rest ->
  peek_header (mkBuf d p) = Ok (L, k).
Proof.
  intros Hp HL Hk Hview. unfold peek_header.
  rewrite (read_chunk d p 4 (le_encode 2 L ++ le_encode 2 k) rest Hp)
    by (first [reflexivity | rewrite <- app_assoc; exact Hview]).
  cbn [fst]. change (len (le_encode 2 L ++ le_encode 2 k) =? 4) with true.
  change (firstn 2 (le_encode 2 L ++ le_encode 2 k)) with (le_encode 2 L).
  change (skipn 2 (le_encode 2 L ++ le_encode 2 k)) with (le_encode 2 k).
  rewrite !le_decode_encode by (change (2 ^ (8 * Z.of_nat 2)) with 65536; lia).
  reflexivity.
Qed.

Lemma t_nla_map_lookup (c : schema) (k : nat) (name : string) (s : schema) :
  nth_error (nla_map c) k = Some (name, s) ->
  nth_error (t_nla_map c) k
  = Some (name, fun debug length b => decode s (init_node s length debug) b).
Proof. intros H. unfold t_nla_map. rewrite nth_error_map, H. reflexivity. Qed.

(** A pass through the body of the attribute loop over a well-formed
    attribute. *)
Lemma nla_iter_faithful (c : schema) (n : node) (d : bytes) (p : Z) (k : nat)
      (name : string) (s : schema) (payload : bytes) (v : value)
      (rest : bytes) (l : list attr) :
  nth_error (nla_map c) k = Some (name, s) ->
  faithful s payload v ->
  4 + len payload < 65536 -> Z.of_nat k < 65536 ->
  0 <= p -> p mod 4 = 0 ->
  skipn (Z.to_nat p) d = wire_attr (Z.of_nat k) payload ++ rest ->
  n_debug n = false -> n_attrs n = Some l ->
  p + len (wire_attr (Z.of_nat k) payload) <= n_offset n + n_length n ->
  nla_iter (t_nla_map c) n (mkBuf d p)
  = Ok (set_attrs (Some (l ++ [mkAttr name v []])) n,
        mkBuf d (p + len (wire_attr (Z.of_nat k) payload))).
Proof.
  intros Hnth Hf HL Hk Hp Hal Hview Hdbg Hattrs Hfit.
  pose proof (len_nonneg payload) as Hpl.
  rewrite len_wire_attr in *.
  pose proof (NLMSG_ALIGN_bounds (4 + len payload)) as Hb.
  destruct (decode_faithful s payload v Hf d p (Z.of_nat k) rest Hp Hal HL Hview)
    as (nla0 & b' & Hdec & Hval).
  pose proof (decode_data _ _ _ _ _ Hdec) as Hdata. cbn [data] in Hdata.
  unfold nla_iter.
  rewrite (peek_header_wire d p (4 + len payload) (Z.of_nat k)
             (payload ++ zeros (field_pad payload) ++ rest))
    by (try lia; unfold wire_attr in Hview; rewrite <- !app_assoc in Hview; exact Hview).
  cbn [bind tell pos]. rewrite seek_nonneg by exact Hp. cbn [bind tell pos data read].
  assert (Hclamp : clamp (4 + len payload) n p = 4 + len payload)
    by (unfold clamp; lia).
  rewrite Hclamp, Nat2Z.id, (t_nla_map_lookup c k name s Hnth), Hdbg.
  rewrite read_data. cbn [data].
  rewrite Hdec. cbn [bind]. unfold get_attrs_list. rewrite Hattrs. cbn [bind].
  rewrite seek_nonneg by lia. cbn [bind new_entry]. rewrite Hval, Hdata. reflexivity.
Qed.

Lemma set_attrs_same (n : node) (l : list attr) :
  n_attrs n = Some l -> set_attrs (Some l) n = n.
Proof. destruct n. cbn. intros ->. reflexivity. Qed.

(** The attribute loop over a well-formed chain that ends with the
    node. *)
Lemma decode_chain (c : schema) (chain : bytes) (entries : list attr) :
  wf_chain c chain entries ->
  forall (fuel : nat) (n : node) (d : bytes) (p : Z) (l : list attr),
    0 <= p -> p mod 4 = 0 ->
    skipn (Z.to_nat p) d = chain ->
    n_debug n = false -> n_attrs n = Some l ->
    n_offset n + n_length n = p + len chain ->
    (Z.to_nat (len chain) <= fuel)%nat ->
    decode_nlas_loop fuel (t_nla_map c) n (mkBuf d p)
    = Ok (set_attrs (Some (l ++ entries)) n, mkBuf d (p + len chain)).
Proof.
  induction 1 as [|k name s payload v rest entries Hnth Hf HL Hk _ IH];
    intros fuel n d p l Hp Hal Hview Hdbg Hattrs Hend Hfuel.
  - destruct fuel; cbn [decode_nlas_loop tell pos];
      (destruct (Z.ltb_spec p (n_offset n + n_length n)) as [Hlt|_];
       [cbn in Hend; lia|]);
      rewrite app_nil_r, (set_attrs_same n l Hattrs); cbn; rewrite Z.add_0_r;
      reflexivity.
  - pose proof (len_wire_attr (Z.of_nat k) payload) as Hw.
    pose proof (NLMSG_ALIGN_bounds (4 + len payload)) as Hb.
    pose proof (NLMSG_ALIGN_mod (4 + len payload)) as Hm.
    pose proof (len_nonneg payload) as Hpl. pose proof (len_nonneg rest) as Hr.
    rewrite len_app in *.
    destruct fuel as [|fuel]; [lia|]. cbn [decode_nlas_loop tell pos].
    destruct (Z.ltb_spec p (n_offset n + n_length n)) as [_|Hge]; [|lia].
    rewrite (nla_iter_faithful c n d p k name s payload v rest l)
      by (try assumption; lia).
    cbn [bind].
    rewrite (IH fuel _ d (p + len (wire_attr (Z.of_nat k) payload)) (l ++ [mkAttr name v []])).
    + rewrite <- app_assoc, Z.add_assoc. destruct n; reflexivity.
    + lia.
    + rewrite Hw. Z.div_mod_to_equations. lia.
    + exact (skip_chunk d p _ rest Hp Hview).
    + exact Hdbg.
    + reflexivity.
    + cbn [n_offset n_length set_attrs]. lia.
    + lia.
Qed.

Lemma decode_nlmsg_header (d : bytes) (p : Z) (lb ty fl sq pid rest : bytes) :
  len lb = 4 -> len ty = 2 -> len fl = 2 -> len sq = 4 -> len pid = 4 ->
  0 <= p -> p mod 4 = 0 ->
  skipn (Z.to_nat p) d = lb ++ ty ++ fl ++ sq ++ pid ++ rest ->
  decode nlmsg_header (init_node nlmsg_header 0 false) (mkBuf d p)
  = Ok (mkNode [("length", VInt (le_decode lb)); ("type", VInt (le_decode ty));
                ("flags", VInt (le_decode fl));
                ("sequence_number", VInt (le_decode sq));
                ("pid", VInt (le_decode pid))]
          None None NotInitialized None 0 p false,
        mkBuf d (p + 16)).
Proof.
  intros Hlb Hty Hfl Hsq Hpid Hp Hal Hview.
  rewrite decode_eq.
  rewrite (decode_base_leaf "nlmsg_header" _ None _ _
             (store_ints (fields nlmsg_header) [lb; ty; fl; sq; pid]
                (set_offset p (init_node nlmsg_header 0 false)))
             d p p (p + 16) eq_refl).
  - rewrite (NLMSG_ALIGN_aligned (p + 16)) by (Z.div_mod_to_equations; lia).
    reflexivity.
  - rewrite (decode_fields_ints _ [lb; ty; fl; sq; pid]) with (rest := rest).
    + cbn [List.concat]. rewrite app_nil_r, !len_app, Hlb, Hty, Hfl, Hsq, Hpid.
      reflexivity.
    + repeat constructor; cbn; congruence.
    + exact Hp.
    + cbn [List.concat]. rewrite app_nil_r, <- !app_assoc. exact Hview.
  - lia.
  - reflexivity.
Qed.

Lemma wf_chain_nonempty (c : schema) (chain : bytes) (entries : list attr) :
  wf_chain c chain entries -> chain <> [] ->
  entries <> [] /\ t_nla_map c <> [].
Proof.
  intros [|k name s payload v rest l Hnth _ _ _ _] Hne; [congruence|].
  split; [discriminate|].
  rewrite (t_nla_map_lookup c k name s Hnth) || idtac.
  intros Htbl. pose proof (t_nla_map_lookup c k name s Hnth) as Hl.
  rewrite Htbl in Hl. destruct k; discriminate.
Qed.

(** [decode] of a well-formed message. *)
Lemma decode_well_formed (c : schema) (b ty fl sq pid cmd ver res chain : bytes)
      (entries : list attr) :
  genl_family c ->
  len ty = 2 -> len fl = 2 -> len sq = 4 -> len pid = 4 ->
  len cmd = 1 -> len ver = 1 -> len res = 2 ->
  wf_chain c chain entries ->
  chain <> [] ->
  len b < 2 ^ 32 ->
  b = le_encode 4 (len b) ++ ty ++ fl ++ sq ++ pid ++ cmd ++ ver ++ res ++ chain ->
  decode_bytes c false b
  = Ok (genl_node (len b) ty fl sq pid cmd ver res entries b, mkBuf b (len b)).
Proof.
  intros (Hh & Hf & Ho & _) Hty Hfl Hsq Hpid Hcmd Hver Hres Hchain Hne Hlt Hb.
  destruct (wf_chain_nonempty c chain entries Hchain Hne) as [Hentries Htbl].
  pose proof (len_nonneg chain) as Hcl.
  assert (Hlen : len b = 20 + len chain).
  { rewrite Hb at 1. rewrite !len_app, len_le_encode, Hty, Hfl, Hsq, Hpid, Hcmd, Hver, Hres.
    lia. }
  assert (Hview0 : skipn (Z.to_nat 0) b
                   = le_encode 4 (len b) ++ ty ++ fl ++ sq ++ pid
                       ++ (cmd ++ ver ++ res ++ chain)).
  { cbn [Z.to_nat skipn]. exact Hb. }
  assert (Hview16 : skipn (Z.to_nat 16) b = List.concat [cmd; ver; res] ++ chain).
  { pose proof (skip_chunk b 0 (le_encode 4 (len b) ++ ty ++ fl ++ sq ++ pid)
                  (cmd ++ ver ++ res ++ chain) ltac:(lia)) as Hs.
    rewrite <- !app_assoc in Hs. specialize (Hs Hview0).
    rewrite !len_app, len_le_encode, Hty, Hfl, Hsq, Hpid in Hs.
    cbn [List.concat]. rewrite app_nil_r, <- !app_assoc. exact Hs. }
  assert (Hview20 : skipn (Z.to_nat 20) b = chain).
  { pose proof (skip_chunk b 16 (List.concat [cmd; ver; res]) chain ltac:(lia) Hview16)
      as Hs.
    cbn [List.concat] in Hs. rewrite app_nil_r, !len_app, Hcmd, Hver, Hres in Hs.
    exact Hs. }
  assert (Hhdr : decode nlmsg_header (init_node nlmsg_header 0 false) (mkBuf b 0)
                 = Ok (mkNode [("length", VInt (len b)); ("type", VInt (le_decode ty));
                               ("flags", VInt (le_decode fl));
                               ("sequence_number", VInt (le_decode sq));
                               ("pid", VInt (le_decode pid))]
                         None None NotInitialized None 0 0 false,
                       mkBuf b 16)).
  { rewrite (decode_nlmsg_header b 0 (le_encode 4 (len b)) ty fl sq pid
               (cmd ++ ver ++ res ++ chain));
      try assumption; try reflexivity; try lia.
    rewrite le_decode_encode
      by (change (2 ^ (8 * Z.of_nat 4)) with (2 ^ 32); pose proof (len_nonneg b); lia).
    reflexivity. }
  unfold decode_bytes, buf_of. rewrite decode_eq.
  unfold decode_base, header_decoder. rewrite Hh, Hf, Ho. cbn [tell pos].
  rewrite (decode_header_run (cname c) (decode nlmsg_header)
             (set_offset 0 (init_node c 0 false))
             (init_node nlmsg_header 0 false)
             (mkNode [("length", VInt (len b)); ("type", VInt (le_decode ty));
                      ("flags", VInt (le_decode fl));
                      ("sequence_number", VInt (le_decode sq));
                      ("pid", VInt (le_decode pid))]
                None None NotInitialized None 0 0 false)
             b 0 16 (len b));
    [ | destruct c; cbn in Hh |- *; rewrite Hh; reflexivity
      | exact Hhdr | reflexivity | lia | cbn; lia | lia | destruct c; reflexivity ].
  cbn [bind].
  rewrite (decode_fields_ints genlmsg_fields [cmd; ver; res]) with (rest := chain);
    [ | repeat constructor; cbn; congruence | lia | exact Hview16 ].
  cbn [bind reraise tell pos List.concat].
  rewrite app_nil_r, !len_app, Hcmd, Hver, Hres.
  replace (NLMSG_ALIGN (16 + (1 + (1 + 2)))) with 20 by reflexivity.
  rewrite seek_nonneg by lia. cbn [bind data].
  destruct (t_nla_map c) as [|kd tbl] eqn:Etbl; [congruence|]. rewrite <- Etbl.
  unfold decode_nlas.
  rewrite (decode_chain c chain entries Hchain _ _ b 20 []);
    [ | lia | reflexivity | exact Hview20 | destruct c; reflexivity
      | destruct c; reflexivity
      | destruct c; cbn -[Z.add Z.sub Z.to_nat len]; lia
      | destruct c; cbn -[Z.add Z.sub Z.to_nat len]; lia ].
  cbn [bind reraise app].
  destruct entries as [|e entries]; [congruence|].
  destruct c as [name flds hdr nmap o]. cbn in Hf. subst flds.
  cbn -[Z.add]. unfold genl_node. do 3 f_equal.
  - unfold slice. rewrite Z.add_0_l, Z.sub_0_r. cbn [Z.to_nat skipn].
    unfold len. rewrite Nat2Z.id, firstn_all. reflexivity.
  - lia.
Qed.

(** ** Encoding the node of a well-formed message *)

Lemma pack_int (f : fmt) (chunk : bytes) :
  is_int f = true ->
  calcsize f = Ok (len chunk) ->
  pack f (VInt (le_decode chunk)) = Ok chunk.
Proof.
  intros Hint Hsize. unfold pack. rewrite Hsize. cbn [bind].
  pose proof (le_decode_bound chunk) as Hb.
  destruct (Z.leb_spec 0 (le_decode chunk)) as [_|Hneg]; [|lia].
  destruct (Z.ltb_spec (le_decode chunk) (2 ^ (8 * len chunk))) as [_|Hge]; [|lia].
  cbn [andb]. unfold len. rewrite Nat2Z.id, le_encode_decode.
  destruct f; cbn in Hint; try discriminate; reflexivity.
Qed.

Lemma pack_FH (z : Z) : 0 <= z < 65536 -> pack FH (VInt z) = Ok (le_encode 2 z).
Proof.
  intros Hz. unfold pack. cbn [calcsize bind].
  destruct (Z.leb_spec 0 z) as [_|Hneg]; [|lia].
  change (2 ^ (8 * 2)) with 65536.
  destruct (Z.ltb_spec z 65536) as [_|Hge]; [|lia]. reflexivity.
Qed.

Lemma pack_FI (z : Z) : 0 <= z < 2 ^ 32 -> pack FI (VInt z) = Ok (le_encode 4 z).
Proof.
  intros Hz. unfold pack. cbn [calcsize bind].
  destruct (Z.leb_spec 0 z) as [_|Hneg]; [|lia].
  change (2 ^ (8 * 4)) with (2 ^ 32).
  destruct (Z.ltb_spec z (2 ^ 32)) as [_|Hge]; [|lia]. reflexivity.
Qed.

Lemma write_nil (d : bytes) (p : Z) :
  0 <= p <= len d -> write [] (mkBuf d p) = mkBuf d p.
Proof.
  intros Hp. unfold write. cbn [data pos app]. f_equal.
  - unfold zeros. replace (Z.to_nat (p - len d)) with 0%nat by lia.
    cbn [repeat]. rewrite app_nil_r. change (len []) with 0. rewrite Z.add_0_r.
    apply firstn_skipn.
  - change (len []) with 0. lia.
Qed.

(** [encode] of the header of an attribute, over the four bytes that
    [reserve] left for it. *)
Lemma encode_nla_header (d post : bytes) (L k : Z) :
  0 <= L < 65536 -> 0 <= k < 65536 ->
  let h := setitem "length" (VInt L)
             (setitem "type" (VInt k) (init_node nla_header 0 false)) in
  encode nla_header h (mkBuf (d ++ zeros 4 ++ post) (len d))
  = Ok (h, mkBuf (d ++ (le_encode 2 L ++ le_encode 2 k) ++ post) (len d + 4)).
Proof.
  intros HL Hk h. rewrite encode_eq.
  cbn [override nla_header encode_override bind fields header_encoder header
       r_nla_map nla_map map].
  unfold encode_base. cbn [bind tell pos].
  change (negb (is_none (getvalue h))) with true. cbv iota.
  change (encode_fields [("length", FH); ("type", FH)] h)
    with (a <- pack FH (VInt L) ;;
          r <- (a0 <- pack FH (VInt k) ;; r0 <- Ok [] ;; Ok (a0 ++ r0)) ;;
          Ok (a ++ r)).
  rewrite (pack_FH L HL), (pack_FH k Hk). cbn [bind]. rewrite app_nil_r.
  change (field_pad (le_encode 2 L ++ le_encode 2 k)) with 0.
  rewrite (write_over d (zeros 4) post (le_encode 2 L ++ le_encode 2 k)) by reflexivity.
  change (len (le_encode 2 L ++ le_encode 2 k)) with 4.
  rewrite write_nil; [reflexivity|].
  rewrite !len_app, !len_le_encode.
  pose proof (len_nonneg d). pose proof (len_nonneg post). lia.
Qed.

Lemma encode_nla_header_end (d : bytes) (L k : Z) :
  0 <= L < 65536 -> 0 <= k < 65536 ->
  let h := setitem "length" (VInt L)
             (setitem "type" (VInt k) (init_node nla_header 0 false)) in
  encode nla_header h (mkBuf d (len d))
  = Ok (h, mkBuf (d ++ le_encode 2 L ++ le_encode 2 k) (len d + 4)).
Proof.
  intros HL Hk h. rewrite encode_eq.
  cbn [override nla_header encode_override bind fields header_encoder header
       r_nla_map nla_map map].
  unfold encode_base. cbn [bind tell pos].
  change (negb (is_none (getvalue h))) with true. cbv iota.
  change (encode_fields [("length", FH); ("type", FH)] h)
    with (a <- pack FH (VInt L) ;;
          r <- (a0 <- pack FH (VInt k) ;; r0 <- Ok [] ;; Ok (a0 ++ r0)) ;;
          Ok (a ++ r)).
  rewrite (pack_FH L HL), (pack_FH k Hk). cbn [bind]. rewrite app_nil_r.
  change (field_pad (le_encode 2 L ++ le_encode 2 k)) with 0.
  rewrite write_at_end.
  change (len (le_encode 2 L ++ le_encode 2 k)) with 4.
  rewrite write_nil; [reflexivity|].
  rewrite !len_app, !len_le_encode. pose proof (len_nonneg d). lia.
Qed.

(** [update_length] of an attribute whose body, payload and padding,
    follows the four bytes left for its header. *)
Lemma update_length_attr (n : node) (d body : bytes) (diff k : Z) :
  n_header n = Some (setitem "type" (VInt k) (init_node nla_header 0 false)) ->
  0 <= 4 + len body - diff < 65536 -> 0 <= k < 65536 ->
  update_length (encode nla_header) (len d) diff n
    (mkBuf (d ++ zeros 4 ++ body) (len d + 4 + len body))
  = Ok (set_header
          (Some (setitem "length" (VInt (4 + len body - diff))
                   (setitem "type" (VInt k) (init_node nla_header 0 false)))) n,
        mkBuf (d ++ (le_encode 2 (4 + len body - diff) ++ le_encode 2 k) ++ body)
              (len d + 4 + len body)).
Proof.
  intros Hh HL Hk. unfold update_length, get_header. rewrite Hh. cbn [bind tell pos].
  pose proof (len_nonneg d) as Hd. pose proof (len_nonneg body) as Hbd.
  replace (len d + 4 + len body - len d - diff) with (4 + len body - diff) by lia.
  rewrite seek_nonneg by lia. cbn [bind data].
  rewrite (encode_nla_header d body (4 + len body - diff) k HL Hk). cbn [bind].
  rewrite seek_nonneg by lia. reflexivity.
Qed.

Lemma reserve_nla_header (d : bytes) :
  reserve (fields nla_header) (mkBuf d (len d)) = Ok (mkBuf d (len d + 4)).
Proof.
  unfold reserve. cbn [fields nla_header get_size calcsize snd bind Z.add].
  unfold seek_cur. cbn [data pos Pos.add Pos.succ]. pose proof (len_nonneg d).
  rewrite Z.max_r by lia. reflexivity.
Qed.

Lemma write_pad (d body : bytes) (g : Z) :
  0 <= g ->
  write (zeros g) (mkBuf (d ++ zeros 4 ++ body) (len d + 4 + len body))
  = mkBuf (d ++ zeros 4 ++ body ++ zeros g) (len d + 4 + len body + g).
Proof.
  intros Hg.
  replace (len d + 4 + len body) with (len (d ++ zeros 4 ++ body))
    by (rewrite !len_app, len_zeros; lia).
  rewrite write_at_end, len_zeros by exact Hg.
  rewrite <- !app_assoc. reflexivity.
Qed.

(** [encode_base] of an attribute class from the end of the buffer:
    with a value that is not [None] it appends the attribute of the
    payload that the field block packs to; with [None] it appends a
    bare header. *)
Lemma encode_base_attr (flds : list (string * fmt)) (n : node) (d : bytes)
      (k : Z) (payload : bytes) :
  n_header n = Some (setitem "type" (VInt k) (init_node nla_header 0 false)) ->
  (is_none (getvalue n) = false /\ encode_fields flds n = Ok payload
   \/ is_none (getvalue n) = true /\ payload = []) ->
  4 + len payload < 65536 -> 0 <= k < 65536 ->
  exists n',
    encode_base flds (Some (fields nla_header, encode nla_header)) [] n
      (mkBuf d (len d))
    = Ok (n', mkBuf (d ++ wire_attr k payload) (len d + len (wire_attr k payload))).
Proof.
  intros Hh Hval HL Hk.
  pose proof (len_nonneg payload) as Hpl. pose proof (len_nonneg d) as Hd.
  pose proof (NLMSG_ALIGN_bounds (len payload)) as Hb.
  unfold encode_base. cbn [tell pos]. unfold get_header at 1. rewrite Hh. cbn [bind].
  rewrite reserve_nla_header. cbn [bind].
  eexists.
  destruct Hval as [[Hv Hfl] | [Hv ->]]; rewrite Hv; cbn [negb].
  - rewrite Hfl. cbn [bind].
    rewrite (write_beyond d payload 4) by lia.
    rewrite (write_pad d payload (field_pad payload)) by (unfold field_pad; lia).
    cbn [bind].
    replace (len d + 4 + len payload + field_pad payload)
      with (len d + 4 + len (payload ++ zeros (field_pad payload)))
      by (rewrite len_app, len_zeros by (unfold field_pad; lia); lia).
    rewrite (update_length_attr n d (payload ++ zeros (field_pad payload))
               (field_pad payload) k Hh)
      by (rewrite ?len_app, ?len_zeros by (unfold field_pad; lia); lia).
    rewrite len_wire_attr, len_app, len_zeros by (unfold field_pad; lia).
    rewrite (NLMSG_ALIGN_add 4 (len payload)) by reflexivity.
    unfold wire_attr, field_pad.
    replace (4 + (len payload + (NLMSG_ALIGN (len payload) - len payload))
             - (NLMSG_ALIGN (len payload) - len payload))
      with (4 + len payload) by lia.
    rewrite <- !app_assoc.
    replace (len d + 4 + (len payload + (NLMSG_ALIGN (len payload) - len payload)))
      with (len d + (4 + NLMSG_ALIGN (len payload))) by lia.
    reflexivity.
  - cbn [bind]. unfold update_length, get_header. rewrite Hh. cbn [bind tell pos].
    replace (len d + 4 - len d - 0) with 4 by lia.
    rewrite seek_nonneg by lia. cbn [bind data].
    rewrite (encode_nla_header_end d 4 k) by lia. cbn [bind].
    rewrite seek_nonneg by lia. cbn [data].
    rewrite len_wire_attr. unfold wire_attr.
    change (len []) with 0. change (field_pad []) with 0.
    change (zeros 0) with (@nil byte). rewrite !app_nil_r.
    replace (NLMSG_ALIGN (4 + 0)) with 4 by reflexivity. reflexivity.
Qed.

Lemma pack_bytes_exact (bs : bytes) : pack (FNs (len bs)) (VBytes bs) = Ok bs.
Proof.
  unfold pack. rewrite calcsize_FNs. cbn [bind].
  unfold len, zeros. rewrite Nat2Z.id, firstn_all, Z.sub_diag. cbn [Z.to_nat repeat].
  rewrite app_nil_r. reflexivity.
Qed.

Lemma pack_bytes_terminated (bs : bytes) :
  pack (FNs (len bs + 1)) (VBytes bs) = Ok (bs ++ [x00]).
Proof.
  unfold pack. cbn [calcsize]. pose proof (len_nonneg bs) as Hl.
  destruct (Z.ltb_spec (len bs + 1) 0) as [Hneg|_]; [lia|].
  cbn [bind]. f_equal. unfold len, zeros.
  rewrite firstn_all2 by lia.
  replace (Z.to_nat (Z.of_nat (List.length bs) + 1 - Z.of_nat (List.length bs)))
    with 1%nat by lia.
  reflexivity.
Qed.

(** Runs [encode] of the child of [uint8], [uint16] or [uint32]. *)
Ltac encode_uint HL Hk :=
  cbn [set_header_type uint8 uint16 uint32 init_node get_header n_header bind];
  rewrite encode_eq; cbn [override encode_override bind];
  (apply encode_base_attr; [reflexivity | left | exact HL | exact Hk]);
  (split; [reflexivity|]);
  cbn [fields encode_fields]; unfold encode_field; cbn -[pack le_decode];
  rewrite pack_int by (cbn; congruence); cbn; rewrite app_nil_r; reflexivity.

(** [encode] of the child that [encode_nlas] builds for the value of a
    faithful atom appends the attribute to the buffer. *)
Lemma encode_faithful (s : schema) (payload : bytes) (v : value) :
  faithful s payload v ->
  forall (d : bytes) (k : Z),
    4 + len payload < 65536 -> 0 <= k < 65536 ->
    exists nla,
      (nla0 <- set_header_type k (init_node s 0 false) ;;
       encode s (setvalue v nla0) (mkBuf d (len d)))
      = Ok (nla, mkBuf (d ++ wire_attr k payload)
                       (len d + len (wire_attr k payload))).
Proof.
  intros Hf d k HL Hk.
  destruct Hf as [ | p1 Hlen | p1 Hlen | p1 Hlen | p1 | q].
  - (* none *)
    cbn [set_header_type none init_node get_header n_header bind].
    rewrite encode_eq. cbn [override encode_override bind].
    apply encode_base_attr; [reflexivity | right; split; reflexivity | exact HL | exact Hk].
  - (* uint8 *) encode_uint HL Hk.
  - (* uint16 *) encode_uint HL Hk.
  - (* uint32 *) encode_uint HL Hk.
  - (* cdata *)
    cbn [set_header_type cdata init_node get_header n_header bind].
    rewrite encode_eq. cbn [override encode_override bind].
    apply encode_base_attr; [reflexivity | left | exact HL | exact Hk].
    split; [reflexivity|].
    cbn [fields encode_fields]. unfold encode_field. cbn -[pack len].
    rewrite pack_bytes_exact. cbn. rewrite app_nil_r. reflexivity.
  - (* asciiz *)
    cbn [set_header_type asciiz init_node get_header n_header bind].
    rewrite encode_eq. cbn [override encode_override].
    destruct (utf8_valid q); cbn -[pack len bytes_of_str str_of_bytes encode_base];
      (apply encode_base_attr; [reflexivity | left | exact HL | exact Hk]);
      (split; [reflexivity|]);
      cbn [fields encode_fields]; unfold encode_field;
      cbn -[pack len bytes_of_str str_of_bytes];
      unfold bytes_of_str, str_of_bytes;
      rewrite ?list_byte_of_string_of_list_byte;
      rewrite pack_bytes_terminated; cbn; rewrite app_nil_r; reflexivity.
Qed.


Lemma r_lookup_absent (l : list (string * schema)) :
  forall (k0 : Z) (name : string),
    ~ In name (map fst l) ->
    r_lookup name k0
      (map (fun ks : string * schema => let '(k, s) := ks in (k, child_encoder_of s)) l)
    = None.
Proof.
  induction l as [|[k s] t IH]; intros k0 name Hin; cbn [map r_lookup]; [reflexivity|].
  cbn [map fst In] in Hin. rewrite IH by tauto.
  destruct (String.eqb_spec name k) as [->|_]; [tauto | reflexivity].
Qed.

Lemma r_lookup_found (l : list (string * schema)) :
  forall (k0 : Z) (k : nat) (name : string) (s : schema),
    NoDup (map fst l) ->
    nth_error l k = Some (name, s) ->
    r_lookup name k0
      (map (fun ks : string * schema => let '(k, s) := ks in (k, child_encoder_of s)) l)
    = Some (child_encoder_of s, k0 + Z.of_nat k).
Proof.
  induction l as [|[k1 s1] t IH]; intros k0 k name s Hnd Hnth.
  - destruct k; discriminate.
  - cbn [map fst] in Hnd. inversion Hnd as [|x xs Hnotin Hnd' E]; subst.
    cbn [map r_lookup]. destruct k as [|k].
    + cbn in Hnth. injection Hnth as -> ->.
      rewrite r_lookup_absent by exact Hnotin.
      rewrite String.eqb_refl, Z.add_0_r. reflexivity.
    + cbn [nth_error] in Hnth. rewrite (IH (k0 + 1) k name s Hnd' Hnth).
      do 2 f_equal. lia.
Qed.

(** [encode_nlas] over the entries of a well-formed chain appends the
    chain to the buffer. *)
Lemma encode_chain (c : schema) (chain : bytes) (entries : list attr) :
  wf_chain c chain entries ->
  NoDup (map fst (nla_map c)) ->
  forall d : bytes,
  exists entries',
    encode_nlas_loop (r_nla_map c) entries (mkBuf d (len d))
    = Ok (entries', mkBuf (d ++ chain) (len d + len chain)).
Proof.
  intros Hchain Hnd.
  induction Hchain as [|k name s payload v rest entries Hnth Hf HL Hk _ IH]; intros d.
  - exists []. cbn [encode_nlas_loop]. rewrite app_nil_r. cbn. rewrite Z.add_0_r.
    reflexivity.
  - cbn [encode_nlas_loop a_name a_value]. unfold r_nla_map at 1.
    rewrite (r_lookup_found (nla_map c) 0 k name s Hnd Hnth). cbn [Z.add bind].
    destruct (encode_faithful s payload v Hf d (Z.of_nat k) HL ltac:(lia)) as [nla Henc].
    unfold child_encoder_of. rewrite Henc. cbn [bind].
    destruct (IH (d ++ wire_attr (Z.of_nat k) payload)) as [entries' Hloop].
    rewrite len_app in Hloop. rewrite Hloop. cbn [bind].
    eexists. rewrite <- app_assoc, len_app, Z.add_assoc. reflexivity.
Qed.

(** [encode] of the netlink header over the 16 bytes that [reserve] left
    for it at the start of the buffer. *)
Lemma encode_nlmsg_header (post : bytes) (total : Z) (ty fl sq pid : bytes) :
  0 <= total < 2 ^ 32 ->
  len ty = 2 -> len fl = 2 -> len sq = 4 -> len pid = 4 ->
  let h := mkNode [("length", VInt total); ("type", VInt (le_decode ty));
                   ("flags", VInt (le_decode fl));
                   ("sequence_number", VInt (le_decode sq));
                   ("pid", VInt (le_decode pid))]
             None None NotInitialized None 0 0 false in
  encode nlmsg_header h (mkBuf (zeros 16 ++ post) 0)
  = Ok (h, mkBuf ((le_encode 4 total ++ ty ++ fl ++ sq ++ pid) ++ post) 16).
Proof.
  intros Ht Hty Hfl Hsq Hpid h. rewrite encode_eq.
  cbn [override nlmsg_header encode_override bind fields header_encoder header
       r_nla_map nla_map map].
  unfold encode_base. cbn [bind tell pos].
  change (negb (is_none (getvalue h))) with true. cbv iota.
  change (encode_fields _ h)
    with (a <- pack FI (VInt total) ;;
          r <- (a0 <- pack FH (VInt (le_decode ty)) ;;
                r0 <- (a1 <- pack FH (VInt (le_decode fl)) ;;
                       r1 <- (a2 <- pack FI (VInt (le_decode sq)) ;;
                              r2 <- (a3 <- pack FI (VInt (le_decode pid)) ;;
                                     r3 <- Ok [] ;; Ok (a3 ++ r3)) ;;
                              Ok (a2 ++ r2)) ;;
                       Ok (a1 ++ r1)) ;;
                Ok (a0 ++ r0)) ;;
          Ok (a ++ r)).
  rewrite (pack_FI total Ht).
  rewrite !pack_int by (cbn; congruence). cbn [bind]. rewrite app_nil_r.
  assert (Hl : len (le_encode 4 total ++ ty ++ fl ++ sq ++ pid) = 16)
    by (rewrite !len_app, len_le_encode, Hty, Hfl, Hsq, Hpid; reflexivity).
  unfold field_pad. rewrite Hl. replace (NLMSG_ALIGN 16 - 16) with 0 by reflexivity.
  pose proof (write_over [] (zeros 16) post (le_encode 4 total ++ ty ++ fl ++ sq ++ pid))
    as Hw.
  cbn [app] in Hw. change (len []) with 0 in Hw. rewrite Hw by (rewrite Hl; reflexivity).
  rewrite Hl. cbn [Z.add].
  rewrite write_nil; [reflexivity|].
  rewrite len_app, Hl. pose proof (len_nonneg post). lia.
Qed.

(** [encode] of the node of a well-formed message, into a fresh buffer. *)
Lemma encode_well_formed (c : schema) (b ty fl sq pid cmd ver res chain : bytes)
      (entries : list attr) :
  genl_family c ->
  len ty = 2 -> len fl = 2 -> len sq = 4 -> len pid = 4 ->
  len cmd = 1 -> len ver = 1 -> len res = 2 ->
  wf_chain c chain entries ->
  chain <> [] ->
  len b < 2 ^ 32 ->
  b = le_encode 4 (len b) ++ ty ++ fl ++ sq ++ pid ++ cmd ++ ver ++ res ++ chain ->
  exists n',
    encode c (genl_node (len b) ty fl sq pid cmd ver res entries b) new_buf
    = Ok (n', mkBuf b (len b)).
Proof.
  intros (Hh & Hf & Ho & Hnd) Hty Hfl Hsq Hpid Hcmd Hver Hres Hchain Hne Hlt Hb.
  destruct (wf_chain_nonempty c chain entries Hchain Hne) as [_ Htbl].
  pose proof (len_nonneg chain) as Hcl. pose proof (len_nonneg b) as Hbl.
  assert (Hlen : len b = 20 + len chain).
  { rewrite Hb at 1.
    rewrite !len_app, len_le_encode, Hty, Hfl, Hsq, Hpid, Hcmd, Hver, Hres. lia. }
  assert (Hrtbl : r_nla_map c <> []).
  { intros E. apply r_nla_map_nil in E. apply Htbl. unfold t_nla_map. rewrite E.
    reflexivity. }
  rewrite encode_eq, Ho. cbn [encode_override bind].
  unfold encode_base, header_encoder. rewrite Hh, Hf.
  cbn [tell pos new_buf get_header genl_node n_header bind].
  replace (reserve (fields nlmsg_header) new_buf) with (Ok (mkBuf [] 16))
    by reflexivity.
  cbn [bind].
  match goal with
  | |- context [negb (is_none (getvalue ?n))] =>
      change (negb (is_none (getvalue n))) with true
  end.
  cbv iota.
  match goal with
  | |- context [encode_fields genlmsg_fields ?n] =>
      change (encode_fields genlmsg_fields n)
        with (a <- pack FB (VInt (le_decode cmd)) ;;
              r <- (a0 <- pack FB (VInt (le_decode ver)) ;;
                    r0 <- (a1 <- pack FH (VInt (le_decode res)) ;;
                           r1 <- Ok [] ;; Ok (a1 ++ r1)) ;;
                    Ok (a0 ++ r0)) ;;
              Ok (a ++ r))
  end.
  rewrite !pack_int by (cbn; congruence). cbn [bind]. rewrite app_nil_r.
  assert (Hpl : len (cmd ++ ver ++ res) = 4)
    by (rewrite !len_app, Hcmd, Hver, Hres; reflexivity).
  unfold field_pad. rewrite Hpl. replace (NLMSG_ALIGN 4 - 4) with 0 by reflexivity.
  pose proof (write_beyond [] (cmd ++ ver ++ res) 16 ltac:(lia)) as Hw.
  cbn [app] in Hw. change (len [] + 16) with 16 in Hw. rewrite Hw, Hpl.
  rewrite write_nil by (rewrite len_app, Hpl, len_zeros; lia).
  cbn [bind]. change (16 + 4) with 20.
  destruct (r_nla_map c) as [|kd tbl] eqn:Etbl; [congruence|]. rewrite <- Etbl.
  unfold encode_nlas, get_attrs_list. cbn [n_attrs genl_node bind].
  destruct (encode_chain c chain entries Hchain Hnd (zeros 16 ++ cmd ++ ver ++ res))
    as [entries' Hloop].
  rewrite len_app, Hpl, len_zeros in Hloop by lia. change (16 + 4) with 20 in Hloop.
  rewrite Hloop. cbn [bind].
  unfold update_length, get_header. cbn [n_header set_attrs genl_node bind tell pos].
  rewrite seek_nonneg by lia. cbn [bind data].
  replace (20 + len chain - 0 - 0) with (len b) by lia.
  rewrite <- !app_assoc.
  pose proof (encode_nlmsg_header (cmd ++ ver ++ res ++ chain) (len b) ty fl sq pid
                ltac:(lia) Hty Hfl Hsq Hpid) as Hhdr.
  cbv zeta in Hhdr.
  change (setitem "length" (VInt (len b))
            (mkNode [("length", VInt (len b)); ("type", VInt (le_decode ty));
                     ("flags", VInt (le_decode fl));
                     ("sequence_number", VInt (le_decode sq));
                     ("pid", VInt (le_decode pid))]
               None None NotInitialized None 0 0 false))
    with (mkNode [("length", VInt (len b)); ("type", VInt (le_decode ty));
                  ("flags", VInt (le_decode fl));
                  ("sequence_number", VInt (le_decode sq));
                  ("pid", VInt (le_decode pid))]
            None None NotInitialized None 0 0 false).
  rewrite Hhdr. cbn [bind].
  rewrite seek_nonneg by lia. cbn [bind data].
  rewrite <- !app_assoc, <- Hb, <- Hlen.
  eexists. reflexivity.
Qed.

(** C1 (as amended).  For a class of generic netlink messages ([ctrlmsg],
    [mgmtmsg]) and a well-formed message [b] of it, whose header length
    is its length, whose chain has at least one attribute, and whose
    attributes have types that the class maps to [none] (without
    payload), [uint8], [uint16], [uint32] (payload of that width),
    [cdata] or [asciiz] (payload with its terminator), each padded with
    zero bytes: decoding [b] and encoding the node into a fresh buffer
    gives [b]. *)
Theorem roundtrip_well_formed (c : schema) (b : bytes) :
  genl_family c ->
  well_formed c b ->
  roundtrip c b = Ok b.
Proof.
  intros Hfam [ty fl sq pid cmd ver res chain entries
                  Hty Hfl Hsq Hpid Hcmd Hver Hres Hchain Hne Hlt Hb].
  unfold roundtrip.
  rewrite (decode_well_formed c b ty fl sq pid cmd ver res chain entries);
    try assumption.
  cbn [bind].
  destruct (encode_well_formed c b ty fl sq pid cmd ver res chain entries)
    as [n' Henc]; try assumption.
  rewrite Henc. reflexivity.
Qed.

Lemma ctrlmsg_genl_family : genl_family ctrlmsg.
Proof.
  repeat split. cbn.
  repeat (constructor; [cbn; intuition discriminate|]). constructor.
Qed.

Lemma mgmtmsg_genl_family : genl_family mgmtmsg.
Proof.
  repeat split. cbn.
  repeat (constructor; [cbn; intuition discriminate|]). constructor.
Qed.

Lemma family_id_message_well_formed : well_formed ctrlmsg family_id_message.
Proof.
  apply (wf_message ctrlmsg family_id_message
           [x10; x00] [x00; x00] [x00; x00; x00; x00] [x00; x00; x00; x00]
           [x01] [x02] [x00; x00]
           (wire_attr 1 [x01; x00] ++ [])
           [mkAttr "CTRL_ATTR_FAMILY_ID" (VInt (le_decode [x01; x00])) []]);
    try reflexivity.
  - apply (wf_chain_cons ctrlmsg 1 "CTRL_ATTR_FAMILY_ID" uint16 [x01; x00]
             (VInt (le_decode [x01; x00])) [] []).
    + reflexivity.
    + apply faithful_uint16. reflexivity.
    + reflexivity.
    + reflexivity.
    + apply wf_chain_nil.
  - discriminate.
Qed.

Lemma roundtrip_well_formed_witness :
  roundtrip ctrlmsg family_id_message = Ok family_id_message.
Proof.
  exact (roundtrip_well_formed ctrlmsg family_id_message
           ctrlmsg_genl_family family_id_message_well_formed).
Defined.

(** Against C1 as stated: a [ctrlmsg] with a [CTRL_ATTR_VERSION]
    attribute decodes, the attribute to its hex dump, and encodes to
    other bytes, the text of the dump in the place of the payload. *)
Lemma hex_attribute_does_not_round_trip :
  exists n b out,
    decode_bytes ctrlmsg false version_message = Ok (n, b)
    /\ get_attr n "CTRL_ATTR_VERSION" VNone "raw" = Ok (VStr "03:00:00:00")
    /\ roundtrip ctrlmsg version_message = Ok out
    /\ len out = 36
    /\ out <> version_message.
Proof.
  eexists; eexists; eexists.
  split; [vm_compute; reflexivity|].
  split; [vm_compute; reflexivity|].
  split; [vm_compute; reflexivity|].
  split; [reflexivity | discriminate].
Qed.

(** The node of a message without attributes has no ['attrs'] key, and
    [encode_nlas] raises [KeyError] on it. *)
Example no_attribute_does_not_encode :
  roundtrip ctrlmsg genl_only = Raise KeyError.
Proof. vm_compute. reflexivity. Qed.
